(** * Spreadsheet ingestion pipeline of the construction dashboard

    A shallow embedding of [src/lib/backend/google-sheets-client.ts]:
    the Yes/No normaliser and the compliance classifier
    ([parseComplianceData]), the six-cell IPC reader ([parseIPCData],
    [fetchAllIPCData]), the per-package compliance and row fetchers
    ([fetchAllComplianceData], [fetchAllSheets]) and the row-to-task
    mapper ([mapRowToTask]).

    Conventions of the model.
    - A JavaScript string is a [string] whose characters are code units
      below 256 (the Latin-1 fragment of UTF-16); [toLowerCase] and [trim]
      are the ECMAScript operations restricted to that fragment.
    - A JavaScript number is an IEEE 754 binary64 value, [spec_float].
    - A plain object used as a dictionary is a [gmap string _] of its own
      properties. A row object is read under header names fixed in the
      source. Where the key comes from outside, the members that the object
      inherits from [Object.prototype] are part of the model: the
      [statusMap] literal, read under the text of a cell, and
      [workbook.Sheets], read by the IPC fetcher under the configured tab
      name. The row and compliance fetchers hand [workbook.Sheets[name]] to
      [sheet_to_json], which answers an inherited member like [undefined]:
      neither has a [!ref].
    - An exception is the [Throw] case of [completion]; a settled promise is
      a [completion] too ([Throw] for a rejected one).
    - [console.log], [console.warn] and [console.error] calls have no effect
      on any returned value and are left out; the dynamic [import('xlsx')]
      is taken to succeed. *)

From Stdlib Require Import ZArith String Ascii List Bool.
From Stdlib Require Import Floats.SpecFloat.
From stdpp Require Import base option strings gmap list.

Open Scope string_scope.

(** ** JavaScript values *)

(** The primitive values that reach the pipeline: the row type [SheetRow]
    holds [string | number | null | undefined], a worksheet cell's [v] holds
    [string | number | boolean | null] or is missing. *)
Inductive JsVal : Type :=
| JUndefined
| JNull
| JBool (b : bool)
| JNum (n : spec_float)
| JStr (s : string).

Definition isNaN (n : spec_float) : bool :=
  match n with S754_nan => true | _ => false end.

Definition isZero (n : spec_float) : bool :=
  match n with S754_zero _ => true | _ => false end.

#[global] Instance spec_float_eq_dec : EqDecision spec_float.
Proof. solve_decision. Defined.
#[global] Instance JsVal_eq_dec : EqDecision JsVal.
Proof. solve_decision. Defined.

(** [ToBoolean]: the values for which [!val] is false. *)
Definition truthy (v : JsVal) : bool :=
  match v with
  | JUndefined | JNull => false
  | JBool b => b
  | JNum n => negb (isZero n || isNaN n)
  | JStr s => negb (String.eqb s "")
  end.

(** [val === 0]. *)
Definition strictEqZero (v : JsVal) : bool :=
  match v with JNum n => isZero n | _ => false end.

(** [a || b]. *)
Definition jsOr (a b : JsVal) : JsVal := if truthy a then a else b.

(** The number [+0]. *)
Definition number_zero : spec_float := S754_zero false.

(** The number [1], for [Number(true)]. *)
Definition number_one : spec_float := Eval cbv in SFone 53 1024.

(** The two ECMAScript conversions between numbers and strings,
    [Number::toString] and [StringToNumber], are taken as an interface of
    the runtime. *)
Class JsRuntime := {
  NumberToString : spec_float -> string;
  StringToNumber : string -> spec_float
}.

(** [String(val)]. *)
Definition ToString `{JsRuntime} (v : JsVal) : string :=
  match v with
  | JUndefined => "undefined"
  | JNull => "null"
  | JBool true => "true"
  | JBool false => "false"
  | JNum n => NumberToString n
  | JStr s => s
  end.

(** [Number(val)]. *)
Definition ToNumber `{JsRuntime} (v : JsVal) : spec_float :=
  match v with
  | JUndefined => S754_nan
  | JNull => S754_zero false
  | JBool true => number_one
  | JBool false => S754_zero false
  | JNum n => n
  | JStr s => StringToNumber s
  end.

(** ** Strings *)

Definition charCode (c : ascii) : N := N_of_ascii c.

(** [String.prototype.toLowerCase] on one code unit below 256:
    [A]-[Z], and the Latin-1 capitals U+00C0-U+00DE except U+00D7. *)
Definition lowerChar (c : ascii) : ascii :=
  let n := charCode c in
  if ((65 <=? n) && (n <=? 90)
      || (192 <=? n) && (n <=? 214)
      || (216 <=? n) && (n <=? 222))%N
  then ascii_of_N (n + 32) else c.

Fixpoint toLowerCase (s : string) : string :=
  match s with
  | EmptyString => EmptyString
  | String c s' => String (lowerChar c) (toLowerCase s')
  end.

(** ECMAScript [WhiteSpace] and [LineTerminator] below 256: TAB, LF, VT, FF,
    CR, SP and NBSP. *)
Definition isWhiteSpace (c : ascii) : bool :=
  let n := charCode c in
  ((9 <=? n) && (n <=? 13) || (n =? 32) || (n =? 160))%N.

Fixpoint trimStart (s : string) : string :=
  match s with
  | EmptyString => EmptyString
  | String c s' => if isWhiteSpace c then trimStart s' else s
  end.

Fixpoint trimEnd (s : string) : string :=
  match s with
  | EmptyString => EmptyString
  | String c s' =>
      match trimEnd s' with
      | EmptyString => if isWhiteSpace c then EmptyString else String c EmptyString
      | t => String c t
      end
  end.

Definition trim (s : string) : string := trimEnd (trimStart s).

(** ** Exceptions and settled promises *)

Inductive completion (A : Type) : Type :=
| Normal (a : A)
| Throw (reason : string).
Arguments Normal {A} a.
Arguments Throw {A} reason.

#[global] Instance completion_ret : MRet completion := fun A a => Normal a.
#[global] Instance completion_bind : MBind completion := fun A B f c =>
  match c with
  | Normal a => f a
  | Throw e => Throw e
  end.

(** [try { body } catch (error) { handler }]. *)
Definition try_catch {A} (body : completion A) (handler : string -> completion A) : completion A :=
  match body with
  | Normal a => Normal a
  | Throw e => handler e
  end.

(** ** Compliance *)

Inductive YesNo : Type := Yes | No.

Inductive ComplianceStatus : Type := COMPLIANT | NON_COMPLIANT | UNKNOWN.

#[global] Instance YesNo_eq_dec : EqDecision YesNo.
Proof. solve_decision. Defined.
#[global] Instance ComplianceStatus_eq_dec : EqDecision ComplianceStatus.
Proof. solve_decision. Defined.

Record RawComplianceData := {
  raw_no_of_staff_rfb : JsVal;
  raw_cesmps_submitted : JsVal;
  raw_ohs_measures : JsVal
}.

Record PackageCompliance := {
  no_of_staff_rfb : option YesNo;
  cesmps_submitted : option YesNo;
  ohs_measures : option YesNo;
  status : ComplianceStatus;
  issues : list string
}.

(** The inner [parseYesNo] of [parseComplianceData]; [None] is [null]. *)
Definition parseYesNo `{JsRuntime} (val : JsVal) : option YesNo :=
  if negb (truthy val) && negb (strictEqZero val) then None
  else
    let normalized := trim (toLowerCase (ToString val)) in
    if String.eqb normalized "yes" then Some Yes
    else if String.eqb normalized "no" then Some No
    else None.

(** One [if (x !== 'Yes') issues.push(x === null ? a : b)] statement. *)
Definition pushIssue (x : option YesNo) (whenNull whenNo : string) (issues : list string) : list string :=
  match x with
  | Some Yes => issues
  | None => issues ++ [whenNull]
  | Some No => issues ++ [whenNo]
  end.

Definition parseComplianceData `{JsRuntime} (raw : option RawComplianceData) : PackageCompliance :=
  match raw with
  | None =>
      {| no_of_staff_rfb := None; cesmps_submitted := None; ohs_measures := None;
         status := UNKNOWN; issues := ["Compliance data not available"] |}
  | Some raw =>
      let staffRfb := parseYesNo (raw_no_of_staff_rfb raw) in
      let cesmps := parseYesNo (raw_cesmps_submitted raw) in
      let ohs := parseYesNo (raw_ohs_measures raw) in
      let allBlank :=
        bool_decide (staffRfb = None) && bool_decide (cesmps = None) && bool_decide (ohs = None) in
      if allBlank then
        {| no_of_staff_rfb := staffRfb; cesmps_submitted := cesmps; ohs_measures := ohs;
           status := UNKNOWN; issues := ["All compliance fields are blank"] |}
      else
        let issues := [] in
        let issues := pushIssue staffRfb "Staff RFB status unknown" "Staff RFB not submitted" issues in
        let issues := pushIssue cesmps "CESMPS submission status unknown" "CESMPS not submitted" issues in
        let issues := pushIssue ohs "OHS measures status unknown" "OHS measures not in place" issues in
        let status := if (length issues =? 0)%nat then COMPLIANT else NON_COMPLIANT in
        {| no_of_staff_rfb := staffRfb; cesmps_submitted := cesmps; ohs_measures := ohs;
           status := status; issues := issues |}
  end.

(** The normalised values as JavaScript values again: ['Yes'], ['No'], [null]. *)
Definition YesNo_value (x : option YesNo) : JsVal :=
  match x with
  | Some Yes => JStr "Yes"
  | Some No => JStr "No"
  | None => JNull
  end.

(** ** Workbooks *)

(** A cell object; a cell without a [v] property has [v = JUndefined]. *)
Record Cell := { v : JsVal }.

(** A worksheet maps A1-style addresses to cells, a row object maps header
    names to values. *)
Abbreviation WorkSheet := (gmap string Cell).
Abbreviation SheetRow := (gmap string JsVal).

Record WorkBook := {
  SheetNames : list string;
  Sheets : gmap string WorkSheet
}.

(** [obj[key]] on a row: a missing property reads as [undefined]. *)
Definition prop (row : SheetRow) (key : string) : JsVal :=
  default JUndefined (row !! key).

Definition digitChar (d : N) : ascii := ascii_of_N (48 + d).

Fixpoint decimalDigits (fuel : nat) (n : N) (acc : string) : string :=
  match fuel with
  | O => acc
  | S fuel' =>
      let acc' := String (digitChar (n mod 10)) acc in
      if (n / 10 =? 0)%N then acc' else decimalDigits fuel' (n / 10) acc'
  end.

(** [XLSX.utils.encode_row]: the 1-based row number in decimal. *)
Definition encode_row (r : nat) : string :=
  let n := N.of_nat (S r) in decimalDigits (S (N.to_nat n)) n "".

(** The loop of [XLSX.utils.encode_col],
    [for(++col; col; col = floor((col-1)/26)) s = fromCharCode((col-1)%26 + 65) + s]. *)
Fixpoint encode_col_loop (fuel : nat) (col : N) (s : string) : string :=
  match fuel with
  | O => s
  | S fuel' =>
      if (col =? 0)%N then s
      else encode_col_loop fuel' ((col - 1) / 26) (String (ascii_of_N ((col - 1) mod 26 + 65)) s)
  end.

Definition encode_col (c : nat) : string :=
  let col := N.of_nat (S c) in encode_col_loop (S c) col "".

(** [XLSX.utils.encode_cell({ r, c })]. *)
Definition encode_cell (r c : nat) : string := encode_col c ++ encode_row r.

Record ReadOptions := { cellDates : bool }.

(** The two entry points of the xlsx package the client calls:
    [XLSX.read(data, { type: 'array', ... })], which throws on a payload it
    cannot decode, and [XLSX.utils.sheet_to_json(worksheet, { raw: false,
    defval: null })] on a worksheet. *)
Class Xlsx := {
  XLSX_read : list Byte.byte -> ReadOptions -> completion WorkBook;
  sheet_to_json : WorkSheet -> completion (list SheetRow)
}.

(** The call [XLSX.utils.sheet_to_json(workbook.Sheets[sheetName], ...)]:
    the argument is [undefined] ([None]) when the workbook has no sheet of
    that name, and the package starts with
    [if (sheet == null || sheet["!ref"] == null) return [];]. *)
Definition sheet_to_json_call `{Xlsx} (worksheet : option WorkSheet) : completion (list SheetRow) :=
  match worksheet with
  | None => mret []
  | Some sheet => sheet_to_json sheet
  end.

(** ** Network *)

Record Response := {
  ok : bool;
  statusText : string;
  arrayBuffer : completion (list Byte.byte)
}.

(** [fetch(url)]: the answer of the network, [Throw] for a rejected
    request. *)
Class Network := { fetch : string -> completion Response }.

Record SheetSource := {
  packageId : string;
  packageName : string;
  publishedXlsxUrl : string
}.

Record Config := { tabName : string }.

(** ** IPC *)

Inductive IPCStatus : Type := not_submitted | submitted | in_process | released.

(** What the [status] property of a record holds at run time: [null], one of
    the four status strings, or a member that the [statusMap] object
    literal inherits from [Object.prototype]. *)
Inductive StatusValue : Type :=
| status_null
| status_of (s : IPCStatus)
| status_inherited (member : string).

Record IPCRecord := { ipcNumber : string; ipc_status : StatusValue }.

Record IPCData := { records : list IPCRecord }.

Definition ipcLabels : list string :=
  ["IPC 1"; "IPC 2"; "IPC 3"; "IPC 4"; "IPC 5"; "IPC 6"].

(** The own properties of the [statusMap] literal. *)
Definition statusMap_own (key : string) : option IPCStatus :=
  if String.eqb key "not submitted" then Some not_submitted
  else if String.eqb key "submitted" then Some submitted
  else if String.eqb key "in process" then Some in_process
  else if String.eqb key "released" then Some released
  else None.

(** The property names of [Object.prototype]; each holds a function or an
    object, hence a truthy value. *)
Definition ObjectPrototype_names : list string :=
  ["constructor"; "__defineGetter__"; "__defineSetter__"; "hasOwnProperty";
   "__lookupGetter__"; "__lookupSetter__"; "isPrototypeOf";
   "propertyIsEnumerable"; "toString"; "valueOf"; "__proto__"; "toLocaleString"].

(** [statusMap[key]]: an own property, else one found along the prototype
    chain, else [undefined] ([None]). *)
Definition statusMap (key : string) : option StatusValue :=
  match statusMap_own key with
  | Some s => Some (status_of s)
  | None =>
      if bool_decide (key ∈ ObjectPrototype_names) then Some (status_inherited key)
      else None
  end.

(** [cellValue?.v ? String(cellValue.v).toLowerCase().trim() : null]. *)
Definition statusRaw `{JsRuntime} (cellValue : option Cell) : option string :=
  match cellValue with
  | None => None
  | Some cell =>
      if truthy (v cell) then Some (trim (toLowerCase (ToString (v cell)))) else None
  end.

(** [statusRaw && statusMap[statusRaw] ? statusMap[statusRaw] : null]. *)
Definition statusOfRaw (raw : option string) : StatusValue :=
  match raw with
  | None => status_null
  | Some raw =>
      if String.eqb raw "" then status_null
      else match statusMap raw with
           | Some s => s
           | None => status_null
           end
  end.

(** One iteration of [for (let col = 24; col <= 29; col++)]. *)
Definition parseIPCData_step `{JsRuntime} (sheet : WorkSheet) (records : list IPCRecord) (col : nat)
  : list IPCRecord :=
  let statusCell := encode_cell 1 col in
  let cellValue := sheet !! statusCell in
  let status := statusOfRaw (statusRaw cellValue) in
  records ++ [ {| ipcNumber := nth (col - 24) ipcLabels ""; ipc_status := status |} ].

Definition parseIPCData `{JsRuntime} (sheet : WorkSheet) : IPCData :=
  {| records := fold_left (parseIPCData_step sheet) (seq 24 6) [] |}.

(** What [workbook.Sheets[name]] holds: a worksheet of the workbook, or a
    member that the [Sheets] object inherits from [Object.prototype]. *)
Inductive SheetsMember : Type :=
| own_sheet (sheet : WorkSheet)
| inherited_member (member : string).

(** [workbook.Sheets[name]]: an own property, else one found along the
    prototype chain, else [undefined] ([None]). *)
Definition Sheets_get (workbook : WorkBook) (name : string) : option SheetsMember :=
  match Sheets workbook !! name with
  | Some sheet => Some (own_sheet sheet)
  | None =>
      if bool_decide (name ∈ ObjectPrototype_names) then Some (inherited_member name)
      else None
  end.

(** The double quote of the message [Sheet "..." not found]. *)
Definition dquote : string := String (ascii_of_N 34) EmptyString.

Definition fetchAllIPCData `{JsRuntime} `{Network} `{Xlsx}
    (SHEET_SOURCES : list SheetSource) (CONFIG : Config) : completion IPCData :=
  try_catch
    (match head SHEET_SOURCES with
     | None => mret {| records := [] |}
     | Some source =>
         response ← fetch (publishedXlsxUrl source);
         if negb (ok response)
         then Throw ("Failed to fetch XLSX: " ++ statusText response)
         else
           arrayBuffer ← arrayBuffer response;
           workbook ← XLSX_read arrayBuffer {| cellDates := false |};
           match Sheets_get workbook (tabName CONFIG) with
           | None => Throw ("Sheet " ++ dquote ++ tabName CONFIG ++ dquote ++ " not found")
           | Some (own_sheet sheet) => mret (parseIPCData sheet)
           | Some (inherited_member _) =>
               (* a function or [Object.prototype] itself: truthy, and without
                  a property at any cell address *)
               mret (parseIPCData ∅)
           end
     end)
    (fun _ => mret {| records := [] |}).

(** ** Compliance fetching *)

(** [row[colName] !== null && row[colName] !== undefined && row[colName] !== '']. *)
Definition isFilled (x : JsVal) : bool :=
  match x with
  | JNull | JUndefined => false
  | JStr s => negb (String.eqb s "")
  | _ => true
  end.

(** [for (const colName of names) if (colName in row && ...) { value =
    row[colName]; break; }], starting from [value = null]. None of the
    candidate names is a member of [Object.prototype], so [colName in row]
    is the presence of the key. *)
Fixpoint findColumn (names : list string) (row : SheetRow) : JsVal :=
  match names with
  | [] => JNull
  | colName :: rest =>
      match row !! colName with
      | Some x => if isFilled x then x else findColumn rest row
      | None => findColumn rest row
      end
  end.

Definition staffRfbNames : list string :=
  ["No_of_Staff_RFB"; "No of Staff RFB"; "Staff RFB"; "No_of_Staff_RFB"].
Definition cesmpNames : list string :=
  ["CESMPS_Submitted"; "CESMPS_Submitte"; "CEMSPS_Submitted"; "CESMPS"].
Definition ohsNames : list string :=
  ["OHS_Measures"; "OHS Measures"; "OHS"; "OHS_Measures"].

(** [value?.toString() ?? null]. *)
Definition optionalToString `{JsRuntime} (x : JsVal) : JsVal :=
  match x with
  | JNull | JUndefined => JNull
  | _ => JStr (ToString x)
  end.

(** The raw record built from the first data row. *)
Definition rawComplianceOfRow `{JsRuntime} (row : SheetRow) : RawComplianceData :=
  let staffValue := findColumn staffRfbNames row in
  let cesmpsValue := findColumn cesmpNames row in
  let ohsValue := findColumn ohsNames row in
  {| raw_no_of_staff_rfb := staffValue;
     raw_cesmps_submitted := optionalToString cesmpsValue;
     raw_ohs_measures := optionalToString ohsValue |}.

(** [let sheetName = 'Data_Entry'; if (!workbook.SheetNames.includes(sheetName))
    sheetName = workbook.SheetNames[0]; workbook.Sheets[sheetName]]. With no
    sheet at all [sheetName] is [undefined], which reads the property named
    ["undefined"]. *)
Definition selectWorksheet (workbook : WorkBook) : option WorkSheet :=
  let sheetName := "Data_Entry" in
  let sheetName :=
    if bool_decide (sheetName ∈ SheetNames workbook) then sheetName
    else default "undefined" (head (SheetNames workbook)) in
  Sheets workbook !! sheetName.

(** The common prefix of the two per-source callbacks: fetch, decode,
    select the worksheet, convert it to row objects. *)
Definition fetchRows `{Network} `{Xlsx} (source : SheetSource) : completion (list SheetRow) :=
  response ← fetch (publishedXlsxUrl source);
  if negb (ok response)
  then Throw ("Failed to fetch XLSX: " ++ statusText response)
  else
    arrayBuffer ← arrayBuffer response;
    workbook ← XLSX_read arrayBuffer {| cellDates := true |};
    sheet_to_json_call (selectWorksheet workbook).

Record ComplianceResult := {
  cr_packageId : string;
  compliance : PackageCompliance
}.

(** The [async (source) => { try { ... } catch (error) { ... } }] callback of
    [fetchAllComplianceData]. *)
Definition complianceOfSource `{JsRuntime} `{Network} `{Xlsx} (source : SheetSource)
  : completion ComplianceResult :=
  try_catch
    (jsonRows ← fetchRows source;
     match jsonRows with
     | row :: _ =>
         let rawData := rawComplianceOfRow row in
         let compliance := parseComplianceData (Some rawData) in
         mret {| cr_packageId := packageId source; compliance := compliance |}
     | [] =>
         mret {| cr_packageId := packageId source; compliance := parseComplianceData None |}
     end)
    (fun _ => mret {| cr_packageId := packageId source; compliance := parseComplianceData None |}).

(** [Promise.allSettled(sources.map(callback))]: one settled result per
    source, in the order of the sources. *)
Definition allSettled {A B} (callback : A -> completion B) (sources : list A) : list (completion B) :=
  map callback sources.

(** A JavaScript [Map] keyed by package identifier is a [gmap]: [set] is
    insertion, a later [set] of the same key replaces the earlier one. The
    iteration order of the [Map] is not modelled. *)
Definition fetchAllComplianceData `{JsRuntime} `{Network} `{Xlsx}
    (SHEET_SOURCES : list SheetSource) : gmap string PackageCompliance :=
  let results := allSettled complianceOfSource SHEET_SOURCES in
  fold_left
    (fun (complianceMap : gmap string PackageCompliance) result =>
       match result with
       | Normal value => <[cr_packageId value := compliance value]> complianceMap
       | Throw _ => complianceMap
       end)
    results ∅.

(** ** Row fetching *)

Record SheetResult := {
  sr_packageId : string;
  rows : list SheetRow
}.

(** The callback of [fetchAllSheets]; its [catch] rethrows. *)
Definition sheetOfSource `{Network} `{Xlsx} (source : SheetSource) : completion SheetResult :=
  try_catch
    (jsonData ← fetchRows source;
     mret {| sr_packageId := packageId source; rows := jsonData |})
    (fun error => Throw error).

(** [results.forEach((result, index) => { const source = SHEET_SOURCES[index];
    ... })]: [results] has one entry per source in order, so the loop runs
    over the sources paired with their results. *)
Definition fetchAllSheets `{Network} `{Xlsx}
    (SHEET_SOURCES : list SheetSource) : gmap string (list SheetRow) :=
  let results := allSettled sheetOfSource SHEET_SOURCES in
  fold_left
    (fun (dataMap : gmap string (list SheetRow)) '(source, result) =>
       match result with
       | Normal value => <[sr_packageId value := rows value]> dataMap
       | Throw _ => <[packageId source := []]> dataMap
       end)
    (zip SHEET_SOURCES results) ∅.

(** ** Task mapping *)

(** Modelled from the spec: [parseDMY] of [src/lib/dataParser] is not part
    of the sources at hand. The spec says of it that date fields are "parsed
    via a day-month-year convention; unparseable values become absent". It
    is taken as an interface: a date type and a parser that yields a date or
    [null] ([None]); that it could throw is left open here and excluded by
    [parseDMY_returns] where a statement depends on it. *)
Class DataParser := {
  Date : Type;
  parseDMY : string -> completion (option Date)
}.

Definition parseDMY_returns `{DataParser} : Prop :=
  forall s, exists d, parseDMY s = Normal d.

Record Task `{DataParser} := {
  package_id : string;
  package_name : string;
  district : string;
  site_id : string;
  site_name : string;
  discipline : string;
  task_name : string;
  planned_start : option Date;
  planned_finish : option Date;
  planned_duration_days : option spec_float;
  actual_start : option Date;
  actual_finish : option Date;
  progress_pct : option spec_float;
  Variance : option spec_float;
  delay_flag_calc : string;
  last_updated : option Date;
  remarks : string;
  photo_folder_url : string;
  cover_photo_share_url : string;
  before_photo_share_url : string;
  after_photo_share_url : string;
  cover_photo_direct_url : option string;
  before_photo_direct_url : option string;
  after_photo_direct_url : option string
}.

(** The inner [getValue] of [mapRowToTask]. *)
Definition getValue `{JsRuntime} (row : SheetRow) (key1 key2 : string) : string :=
  let val := jsOr (prop row key1) (prop row key2) in
  if truthy val then trim (ToString val) else "".

(** [val === null || val === undefined || val === '']. *)
Definition isBlank (x : JsVal) : bool :=
  match x with
  | JNull | JUndefined => true
  | JStr s => String.eqb s ""
  | _ => false
  end.

(** The inner [getNumber] of [mapRowToTask]. *)
Definition getNumber `{JsRuntime} (row : SheetRow) (key1 key2 : string) : option spec_float :=
  let val := jsOr (prop row key1) (prop row key2) in
  if isBlank val then None
  else
    let num := ToNumber val in
    if isNaN num then None else Some num.

Definition mapRowToTask `{JsRuntime} `{DataParser}
    (row : SheetRow) (packageId packageName : string) : completion (option Task) :=
  try_catch
    (if negb (truthy (prop row "Site ID")) && negb (truthy (prop row "site_id"))
     then mret None
     else
       planned_start ← parseDMY (getValue row "Planned Start" "planned_start");
       planned_finish ← parseDMY (getValue row "Planned Finish" "planned_finish");
       actual_start ← parseDMY (getValue row "Actual Start" "actual_start");
       actual_finish ← parseDMY (getValue row "Actual Finish" "actual_finish");
       last_updated ← parseDMY (getValue row "Last Updated" "last_updated");
       mret (Some
         {| package_id := packageId;
            package_name := packageName;
            district := getValue row "District" "district";
            site_id := getValue row "Site ID" "site_id";
            site_name := getValue row "Site Name" "site_name";
            discipline := getValue row "Discipline" "discipline";
            task_name := getValue row "Task Name" "task_name";
            planned_start := planned_start;
            planned_finish := planned_finish;
            planned_duration_days := getNumber row "Planned Duration (Days)" "planned_duration_days";
            actual_start := actual_start;
            actual_finish := actual_finish;
            progress_pct := getNumber row "Progress %" "progress_pct";
            Variance := getNumber row "Variance" "Variance";
            delay_flag_calc := getValue row "Delay Flag" "delay_flag_calc";
            last_updated := last_updated;
            remarks := getValue row "Remarks" "remarks";
            photo_folder_url := getValue row "Photo Folder" "photo_folder_url";
            cover_photo_share_url := getValue row "Cover Photo" "cover_photo_share_url";
            before_photo_share_url := getValue row "Before Photo" "before_photo_share_url";
            after_photo_share_url := getValue row "After Photo" "after_photo_share_url";
            cover_photo_direct_url := None;
            before_photo_direct_url := None;
            after_photo_direct_url := None |}))
    (fun _ => mret None).

(** ** Reference instances

    Small instances of the interfaces, used to run the pipeline on concrete
    inputs. *)

Definition digitValue (c : ascii) : option N :=
  let n := charCode c in
  if ((48 <=? n) && (n <=? 57))%N then Some (n - 48)%N else None.

Fixpoint parseDigits_from (acc : N) (s : string) : option N :=
  match s with
  | EmptyString => Some acc
  | String c s' =>
      match digitValue c with
      | Some d => parseDigits_from (10 * acc + d)%N s'
      | None => None
      end
  end.

(** The value of a non-empty string of decimal digits. *)
Definition parseDigits (s : string) : option N :=
  match s with
  | EmptyString => None
  | _ => parseDigits_from 0 s
  end.

Definition printN (n : N) : string := decimalDigits (S (N.to_nat n)) n "".

(** The runtime conversions on the fragment of the unsigned integers, where
    they are easy to write down: [StringToNumber] of white space is [+0], of
    a string of decimal digits its value rounded to binary64; [toString] of
    an integral number below 10^21 is its decimal expansion. Outside that
    fragment this instance answers [NaN] and the empty string; nothing below
    evaluates it there. *)
Definition digits_StringToNumber (s : string) : spec_float :=
  let t := trim s in
  if String.eqb t "" then S754_zero false
  else match parseDigits t with
       | Some n => binary_normalize 53 1024 (Z.of_N n) 0 false
       | None => S754_nan
       end.

Definition digits_NumberToString (n : spec_float) : string :=
  match n with
  | S754_nan => "NaN"
  | S754_zero _ => "0"
  | S754_infinity false => "Infinity"
  | S754_infinity true => "-Infinity"
  | S754_finite sign m e =>
      let minus := if sign then "-" else "" in
      if (0 <=? e)%Z then minus ++ printN (N.pos m * 2 ^ Z.to_N e)
      else
        let d := (2 ^ Z.to_N (- e))%N in
        if (N.pos m mod d =? 0)%N then minus ++ printN (N.pos m / d) else ""
  end.

Definition digits_runtime : JsRuntime :=
  {| NumberToString := digits_NumberToString; StringToNumber := digits_StringToNumber |}.

Fixpoint splitOn (sep : ascii) (s : string) : list string :=
  match s with
  | EmptyString => [EmptyString]
  | String c s' =>
      if Ascii.eqb c sep then EmptyString :: splitOn sep s'
      else match splitOn sep s' with
           | [] => [String c EmptyString]
           | w :: ws => String c w :: ws
           end
  end.

(** A date parser in the day-month-year convention: [d/m/y] in decimal
    digits is a date, anything else is absent; it never throws. *)
Definition slash_parseDMY (s : string) : completion (option (N * N * N)) :=
  match splitOn "/" s with
  | [d; m; y] =>
      match parseDigits d, parseDigits m, parseDigits y with
      | Some d, Some m, Some y => Normal (Some (d, m, y))
      | _, _, _ => Normal None
      end
  | _ => Normal None
  end.

Definition slash_dates : DataParser :=
  {| Date := (N * N * N)%type; parseDMY := slash_parseDMY |}.

(** Sample workbooks. [entry_sheet] is the example of the change notes: the
    compliance columns V-X and the IPC columns Y-AD of row 2. *)
Definition text (s : string) : Cell := {| v := JStr s |}.

Definition entry_sheet : WorkSheet :=
  list_to_map
    [("A1", text "Site ID"); ("A2", text "S-001");
     ("V1", text "No_of_Staff_RFB"); ("V2", text "Yes");
     ("W1", text "CESMPS_Submitted"); ("W2", text "no");
     ("X1", text "OHS_Measures");
     ("Y2", text "released"); ("Z2", text "in process"); ("AA2", text "submitted");
     ("AB2", text "not submitted"); ("AD2", text "released")].

Definition other_sheet : WorkSheet :=
  list_to_map
    [("A1", text "Site ID"); ("A2", text "S-100");
     ("V1", text "No_of_Staff_RFB"); ("V2", text "Yes");
     ("Y2", text "submitted")].

(** A worksheet whose first IPC cell holds the word [constructor]. *)
Definition odd_sheet : WorkSheet :=
  list_to_map [("Y2", text "constructor"); ("Z2", text "released")].

Definition entry_workbook : WorkBook :=
  {| SheetNames := ["Summary"; "Data_Entry"];
     Sheets := list_to_map [("Summary", ∅); ("Data_Entry", entry_sheet)] |}.

(** A workbook without a [Data_Entry] sheet. *)
Definition plain_workbook : WorkBook :=
  {| SheetNames := ["Sheet1"]; Sheets := list_to_map [("Sheet1", other_sheet)] |}.

(** A small [sheet_to_json]: one row object for row 2, with the headers of
    row 1 in columns A, V, W and X; an empty cell under a header reads as
    [null] ([defval]). *)
Definition sample_sheet_to_json (sheet : WorkSheet) : completion (list SheetRow) :=
  let addColumn (row : SheetRow) (col : string) : SheetRow :=
    match sheet !! (col ++ "1") with
    | Some {| v := JStr header |} =>
        match sheet !! (col ++ "2") with
        | Some {| v := JStr s |} => <[header := JStr s]> row
        | _ => <[header := JNull]> row
        end
    | _ => row
    end in
  match sheet !! "A2" with
  | Some _ => Normal [fold_left addColumn ["A"; "V"; "W"; "X"] ∅]
  | None => Normal []
  end.

Definition sample_XLSX_read (data : list Byte.byte) (opts : ReadOptions) : completion WorkBook :=
  match data with
  | [Byte.x01] => Normal entry_workbook
  | [Byte.x02] => Normal plain_workbook
  | _ => Throw "Unsupported file"
  end.

Definition sample_xlsx : Xlsx :=
  {| XLSX_read := sample_XLSX_read; sheet_to_json := sample_sheet_to_json |}.

(** A network on which [/p1] and [/p3] answer with a workbook, [/p2] answers
    HTTP 500, and every other request fails. *)
Definition sample_fetch (url : string) : completion Response :=
  if String.eqb url "https://sheets.example/p1"
  then Normal {| ok := true; statusText := "OK"; arrayBuffer := Normal [Byte.x01] |}
  else if String.eqb url "https://sheets.example/p2"
  then Normal {| ok := false; statusText := "Internal Server Error"; arrayBuffer := Normal [] |}
  else if String.eqb url "https://sheets.example/p3"
  then Normal {| ok := true; statusText := "OK"; arrayBuffer := Normal [Byte.x02] |}
  else Throw "fetch failed".

Definition sample_network : Network := {| fetch := sample_fetch |}.

Definition source_p1 : SheetSource :=
  {| packageId := "P1"; packageName := "Package 1"; publishedXlsxUrl := "https://sheets.example/p1" |}.
Definition source_p2 : SheetSource :=
  {| packageId := "P2"; packageName := "Package 2"; publishedXlsxUrl := "https://sheets.example/p2" |}.
Definition source_p3 : SheetSource :=
  {| packageId := "P3"; packageName := "Package 3"; publishedXlsxUrl := "https://sheets.example/p3" |}.
(** A second source under the identifier of [source_p1], failing. *)
Definition source_p1_down : SheetSource :=
  {| packageId := "P1"; packageName := "Package 1"; publishedXlsxUrl := "https://sheets.example/down" |}.

Definition data_entry_config : Config := {| tabName := "Data_Entry" |}.

(** Sample rows. *)

Definition site_row : SheetRow :=
  list_to_map
    [("Site ID", JStr " S-001 "); ("site_name", JStr "Bridge 4");
     ("Planned Start", JStr "05/02/2026"); ("Progress %", JStr "55");
     ("Variance", JStr "n/a")].

(** A row without a site identifier. *)
Definition blank_row : SheetRow :=
  list_to_map [("Site ID", JNull); ("Site Name", JStr "Bridge 4")].

(** A row whose site identifier is the number zero. *)
Definition zero_site_row : SheetRow :=
  list_to_map [("Site ID", JNum number_zero); ("Site Name", JStr "Bridge 4")].

(** A row whose progress is the number zero under the first spelling and
    the text 55 under the second. *)
Definition zero_progress_row : SheetRow :=
  list_to_map
    [("Site ID", JStr "S-001"); ("Progress %", JNum number_zero);
     ("progress_pct", JStr "55")].

(** ** Statements of the specification *)

(** The issue entry of one compliance field, in the words of the
    specification: none for [Yes], one saying that the status is unknown for
    [Unknown], one saying that the item is not submitted or not in place for
    [No]. *)
Definition fieldIssue (whenUnknown whenNo : string) (x : option YesNo) : list string :=
  match x with
  | Some Yes => []
  | None => [whenUnknown]
  | Some No => [whenNo]
  end.

Definition nonYesCount (fields : list (option YesNo)) : nat :=
  length (filter (fun x => x ≠ Some Yes) fields).

(** The workbook that a source delivers: the request, the status check,
    the body and its decoding, as each of the three fetchers performs them. *)
Definition fetchWorkbook `{Network} `{Xlsx} (opts : ReadOptions) (source : SheetSource)
  : completion WorkBook :=
  response ← fetch (publishedXlsxUrl source);
  if negb (ok response)
  then Throw ("Failed to fetch XLSX: " ++ statusText response)
  else
    arrayBuffer ← arrayBuffer response;
    XLSX_read arrayBuffer opts.

(** The failures of a source's fetch pipeline: the request is rejected, the
    HTTP status is not a success, the body cannot be read, or the payload
    cannot be decoded. *)
Inductive FetchFailure `{Network} `{Xlsx} (opts : ReadOptions) (source : SheetSource) : Prop :=
| network_failure e :
    fetch (publishedXlsxUrl source) = Throw e →
    FetchFailure opts source
| http_failure response :
    fetch (publishedXlsxUrl source) = Normal response →
    ok response = false →
    FetchFailure opts source
| body_failure response e :
    fetch (publishedXlsxUrl source) = Normal response →
    ok response = true →
    arrayBuffer response = Throw e →
    FetchFailure opts source
| undecodable_payload response data e :
    fetch (publishedXlsxUrl source) = Normal response →
    ok response = true →
    arrayBuffer response = Normal data →
    XLSX_read data opts = Throw e →
    FetchFailure opts source.

Definition ipcReadOptions : ReadOptions := {| cellDates := false |}.
Definition rowReadOptions : ReadOptions := {| cellDates := true |}.


(** The closed vocabulary of IPC statuses. *)
Definition vocabulary : list (string * IPCStatus) :=
  [("not submitted", not_submitted); ("submitted", submitted);
   ("in process", in_process); ("released", released)].

(** Worksheet selection in the words of the specification: the worksheet
    of the conventional name if the workbook has one, else the first
    worksheet of the workbook. *)
Definition conventionalWorksheet (name : string) (workbook : WorkBook) : option WorkSheet :=
  if bool_decide (name ∈ SheetNames workbook) then Sheets workbook !! name
  else head (SheetNames workbook) ≫= fun first => Sheets workbook !! first.

(** A field value that is absent or empty: [undefined], [null] or the empty
    string. *)
Definition absentOrEmpty (x : JsVal) : Prop :=
  x = JUndefined ∨ x = JNull ∨ x = JStr "".

#[global] Instance absentOrEmpty_dec (x : JsVal) : Decision (absentOrEmpty x).
Proof. unfold absentOrEmpty. apply _. Defined.

(** The value under the first of two header spellings that is truthy. *)
Definition firstTruthy (row : SheetRow) (key1 key2 : string) : option JsVal :=
  if truthy (prop row key1) then Some (prop row key1)
  else if truthy (prop row key2) then Some (prop row key2)
  else None.

(** A string field: the winning value as trimmed text, else the empty
    string. *)
Definition textField `{JsRuntime} (row : SheetRow) (key1 key2 : string) : string :=
  match firstTruthy row key1 key2 with
  | Some x => trim (ToString x)
  | None => ""
  end.

(** The number a value converts to, absent when it is not a number. *)
Definition parsedNumber `{JsRuntime} (x : JsVal) : option spec_float :=
  if isNaN (ToNumber x) then None else Some (ToNumber x).

(** A numeric field: the winning value converted, absent when it does not
    parse, and absent when both values are absent or empty. Nothing is said
    of a falsy number (zero, NaN) under the second spelling when the first
    does not win. *)
Definition numberFieldRule `{JsRuntime} (row : SheetRow) (key1 key2 : string)
    (field : option spec_float) : Prop :=
  (∀ x, firstTruthy row key1 key2 = Some x → field = parsedNumber x)
  ∧ (absentOrEmpty (prop row key1) → absentOrEmpty (prop row key2) → field = None).

(** A date field: what [parseDMY] makes of the string field. *)
Definition dateField `{JsRuntime} `{DataParser} (row : SheetRow) (key1 key2 : string)
  : completion (option Date) :=
  parseDMY (textField row key1 key2).

(** The rows a source contributes: those of its worksheet, none when its
    pipeline failed. *)
Definition rowsOfSource `{Network} `{Xlsx} (source : SheetSource) : list SheetRow :=
  match sheetOfSource source with
  | Normal value => rows value
  | Throw _ => []
  end.

(** The compliance record a source contributes. *)
Definition complianceOf `{JsRuntime} `{Network} `{Xlsx} (source : SheetSource) : PackageCompliance :=
  match fetchRows source with
  | Normal (row :: _) => parseComplianceData (Some (rawComplianceOfRow row))
  | _ => parseComplianceData None
  end.


(** A map after one [set] per element of a list, in list order. *)
Definition setAll {A V : Type} (key : A → string) (val : A → V)
    (l : list A) (m : gmap string V) : gmap string V :=
  fold_left (fun m a => <[key a := val a]> m) l m.

(** ** The IPC card

    [src/components/IPCCard.tsx]. The element tree the component returns is
    represented by its variable parts: the summary badges of the header and
    one cell per record, each with its label and status badge. The fixed
    markup around them is left out. *)

#[global] Instance IPCStatus_eq_dec : EqDecision IPCStatus.
Proof. solve_decision. Defined.
#[global] Instance StatusValue_eq_dec : EqDecision StatusValue.
Proof. solve_decision. Defined.

Module IPCCard.

Record Badge := { className : string; label : string }.

(** [getStatusBadge]; a value that is neither falsy nor one of the four
    status strings takes the [default] branch. *)
Definition getStatusBadge (status : StatusValue) : Badge :=
  match status with
  | status_null =>
      {| className := "bg-gray-100 text-gray-700 hover:bg-gray-100"; label := "Unknown" |}
  | status_of released =>
      {| className := "bg-emerald-100 text-emerald-700 hover:bg-emerald-100"; label := "Released" |}
  | status_of in_process =>
      {| className := "bg-blue-100 text-blue-700 hover:bg-blue-100"; label := "In Process" |}
  | status_of submitted =>
      {| className := "bg-amber-100 text-amber-700 hover:bg-amber-100"; label := "Submitted" |}
  | status_of not_submitted =>
      {| className := "bg-red-100 text-red-700 hover:bg-red-100"; label := "Not Submitted" |}
  | status_inherited _ =>
      {| className := "bg-gray-100 text-gray-700"; label := "Unknown" |}
  end.

(** [records.filter(i => i.status === s).length]. *)
Definition countStatus (s : IPCStatus) (records : list IPCRecord) : nat :=
  length (filter (fun i => ipc_status i = status_of s) records).

Definition count_released := countStatus released.
Definition count_in_process := countStatus in_process.
Definition count_submitted := countStatus submitted.
Definition count_not_submitted := countStatus not_submitted.

Record Summary := {
  released : nat;
  inProcess : nat;
  submitted : nat;
  notSubmitted : nat
}.

Definition summary (records : list IPCRecord) : Summary :=
  {| released := count_released records;
     inProcess := count_in_process records;
     submitted := count_submitted records;
     notSubmitted := count_not_submitted records |}.

(** [{count > 0 && (<Badge className=...>{count} Text</Badge>)}]. *)
Definition summaryBadge (count : nat) (className text : string) : list Badge :=
  if (0 <? count)%nat
  then [ {| className := className; label := printN (N.of_nat count) ++ " " ++ text |} ]
  else [].

Record View := {
  summaryBadges : list Badge;
  cells : list (string * Badge)
}.

(** The component; [None] is the [null] it returns without records. *)
Definition IPCCard (ipcData : IPCData) : option View :=
  match records ipcData with
  | [] => None
  | _ =>
      let summary := summary (records ipcData) in
      Some
        {| summaryBadges :=
             (summaryBadge (released summary)
                "bg-emerald-100 text-emerald-700 hover:bg-emerald-100" "Released"
              ++ summaryBadge (inProcess summary)
                   "bg-blue-100 text-blue-700 hover:bg-blue-100" "In Process"
              ++ summaryBadge (submitted summary)
                   "bg-amber-100 text-amber-700 hover:bg-amber-100" "Submitted"
              ++ summaryBadge (notSubmitted summary)
                   "bg-red-100 text-red-700 hover:bg-red-100" "Not Submitted")%list;
           cells :=
             map (fun ipc => (ipcNumber ipc, getStatusBadge (ipc_status ipc)))
                 (records ipcData) |}
  end.

End IPCCard.

(** ** Further statements *)

(** A character test holds of every character of a string. *)
Fixpoint allChars (p : ascii → bool) (s : string) : bool :=
  match s with
  | EmptyString => true
  | String c s' => p c && allChars p s'
  end.

Definition isUpperAZ (c : ascii) : bool :=
  let n := charCode c in ((65 <=? n) && (n <=? 90))%N.

(** The fields of a compliance record as raw values again. *)
Definition normalisedRaw (r : PackageCompliance) : RawComplianceData :=
  {| raw_no_of_staff_rfb := YesNo_value (no_of_staff_rfb r);
     raw_cesmps_submitted := YesNo_value (cesmps_submitted r);
     raw_ohs_measures := YesNo_value (ohs_measures r) |}.

(** The header names [mapRowToTask] reads. *)
Definition taskKeys : list string :=
  ["Site ID"; "site_id"; "District"; "district"; "Site Name"; "site_name";
   "Discipline"; "discipline"; "Task Name"; "task_name";
   "Planned Start"; "planned_start"; "Planned Finish"; "planned_finish";
   "Planned Duration (Days)"; "planned_duration_days";
   "Actual Start"; "actual_start"; "Actual Finish"; "actual_finish";
   "Progress %"; "progress_pct"; "Variance";
   "Delay Flag"; "delay_flag_calc"; "Last Updated"; "last_updated";
   "Remarks"; "remarks"; "Photo Folder"; "photo_folder_url";
   "Cover Photo"; "cover_photo_share_url"; "Before Photo"; "before_photo_share_url";
   "After Photo"; "after_photo_share_url"].

(** The two header spellings of the five date fields. *)
Definition dateKeys : list (string * string) :=
  [("Planned Start", "planned_start"); ("Planned Finish", "planned_finish");
   ("Actual Start", "actual_start"); ("Actual Finish", "actual_finish");
   ("Last Updated", "last_updated")].

(** A workbook that has a worksheet under each name it lists, and lists at
    least one. *)
Definition wellFormedWorkbook (workbook : WorkBook) : Prop :=
  SheetNames workbook ≠ []
  ∧ ∀ name, name ∈ SheetNames workbook → is_Some (Sheets workbook !! name).

(** Further samples. A date parser that throws on text it cannot read. *)
Definition strict_parseDMY (s : string) : completion (option (N * N * N)) :=
  if String.eqb s "" then Normal None
  else match slash_parseDMY s with
       | Normal (Some d) => Normal (Some d)
       | _ => Throw "Invalid date"
       end.

Definition strict_dates : DataParser :=
  {| Date := (N * N * N)%type; parseDMY := strict_parseDMY |}.

(** A row with a site identifier and a date that is not one. *)
Definition bad_date_row : SheetRow :=
  list_to_map [("Site ID", JStr "S-001"); ("Actual Start", JStr "soon")].

(** A row whose site identifier is blank space. *)
Definition space_site_row : SheetRow :=
  list_to_map [("Site ID", JStr "   "); ("Site Name", JStr "Bridge 4")].

(** [site_row] with a column that the mapper does not read. *)
Definition site_row_extra : SheetRow :=
  <["Contractor" := JStr "ACME"]> site_row.

(** [entry_sheet] with other headers and other data outside Y2-AD2. *)
Definition entry_sheet_renamed : WorkSheet :=
  <["Y1" := text "Certificate 1"]> (<["A2" := text "S-999"]> (delete "V2" entry_sheet)).

(** A network on which every request fails. *)
Definition down_network : Network := {| fetch := fun _ => Throw "fetch failed" |}.

(** A network on which only [/p1] answers, as on [sample_network]. *)
Definition p1_only_network : Network :=
  {| fetch := fun url =>
       if String.eqb url "https://sheets.example/p1" then sample_fetch url
       else Throw "fetch failed" |}.

(** A value as [sheet_to_json] produces it with [raw: false] and
    [defval: null]: formatted text, [null], or nothing under the key. *)
Definition textValue (x : JsVal) : Prop :=
  x = JUndefined ∨ x = JNull ∨ ∃ s, x = JStr s.

(** The value under the first of two header spellings that is not absent
    or empty. *)
Definition firstNonEmpty (row : SheetRow) (key1 key2 : string) : option JsVal :=
  if decide (absentOrEmpty (prop row key1))
  then if decide (absentOrEmpty (prop row key2)) then None else Some (prop row key2)
  else Some (prop row key1).

(** The site identifier 0 as text. *)
Definition text_zero_site_row : SheetRow :=
  list_to_map [("Site ID", JStr "0"); ("Site Name", JStr "Bridge 4")].

(** The progress 0 as a number, under the first spelling only and under the
    second spelling only. *)
Definition zero_only_row : SheetRow :=
  list_to_map [("Site ID", JStr "S-001"); ("Progress %", JNum number_zero)].

Definition zero_second_row : SheetRow :=
  list_to_map [("Site ID", JStr "S-001"); ("progress_pct", JNum number_zero)].

(** * Properties *)

(** ** The normaliser and the compliance classifier *)

Lemma parseYesNo_Yes `{JsRuntime} : parseYesNo (JStr "Yes") = Some Yes.
Proof. reflexivity. Qed.

Lemma parseYesNo_No `{JsRuntime} : parseYesNo (JStr "No") = Some No.
Proof. reflexivity. Qed.

Lemma parseYesNo_null `{JsRuntime} : parseYesNo JNull = None.
Proof. reflexivity. Qed.

(** C9. The normaliser is idempotent: normalising the value it returned
    (['Yes'], ['No'] or [null]) returns that value again, for every input. *)
Theorem parseYesNo_idempotent `{JsRuntime} (val : JsVal) :
  parseYesNo (YesNo_value (parseYesNo val)) = parseYesNo val.
Proof.
  destruct (parseYesNo val) as [[]|]; cbn [YesNo_value].
  - apply parseYesNo_Yes.
  - apply parseYesNo_No.
  - apply parseYesNo_null.
Qed.

Lemma parseComplianceData_fields `{JsRuntime} (raw : RawComplianceData) :
  let r := parseComplianceData (Some raw) in
  no_of_staff_rfb r = parseYesNo (raw_no_of_staff_rfb raw)
  ∧ cesmps_submitted r = parseYesNo (raw_cesmps_submitted raw)
  ∧ ohs_measures r = parseYesNo (raw_ohs_measures raw).
Proof.
  cbn zeta. unfold parseComplianceData.
  destruct (parseYesNo (raw_no_of_staff_rfb raw)) as [[]|],
    (parseYesNo (raw_cesmps_submitted raw)) as [[]|],
    (parseYesNo (raw_ohs_measures raw)) as [[]|]; cbn; auto.
Qed.

(** C1. For every raw input, with the three values normalised to Yes, No or
    Unknown: the status is Unknown iff all three are Unknown, Compliant iff
    all three are Yes, and NonCompliant otherwise; a NonCompliant record
    lists one issue per field that is not Yes, in field order, worded
    "unknown" for Unknown and "not submitted"/"not in place" for No. The
    input Yes / "no" / null gives NonCompliant with the two issues of the
    example. *)
Theorem parseComplianceData_status_issues `{JsRuntime} (raw : RawComplianceData) :
  let r := parseComplianceData (Some raw) in
  let staffRfb := no_of_staff_rfb r in
  let cesmps := cesmps_submitted r in
  let ohs := ohs_measures r in
  (staffRfb = parseYesNo (raw_no_of_staff_rfb raw)
   ∧ cesmps = parseYesNo (raw_cesmps_submitted raw)
   ∧ ohs = parseYesNo (raw_ohs_measures raw))
  ∧ (status r = UNKNOWN ↔ staffRfb = None ∧ cesmps = None ∧ ohs = None)
  ∧ (status r = COMPLIANT ↔ staffRfb = Some Yes ∧ cesmps = Some Yes ∧ ohs = Some Yes)
  ∧ (status r = NON_COMPLIANT ↔
       ¬ (staffRfb = None ∧ cesmps = None ∧ ohs = None)
       ∧ ¬ (staffRfb = Some Yes ∧ cesmps = Some Yes ∧ ohs = Some Yes))
  ∧ (status r = NON_COMPLIANT →
       issues r =
         (fieldIssue "Staff RFB status unknown" "Staff RFB not submitted" staffRfb
          ++ fieldIssue "CESMPS submission status unknown" "CESMPS not submitted" cesmps
          ++ fieldIssue "OHS measures status unknown" "OHS measures not in place" ohs)%list
       ∧ length (issues r) = nonYesCount [staffRfb; cesmps; ohs])
  ∧ (status r = COMPLIANT → issues r = [])
  ∧ parseComplianceData
      (Some {| raw_no_of_staff_rfb := JStr "Yes";
               raw_cesmps_submitted := JStr "no";
               raw_ohs_measures := JNull |})
    = {| no_of_staff_rfb := Some Yes; cesmps_submitted := Some No; ohs_measures := None;
         status := NON_COMPLIANT;
         issues := ["CESMPS not submitted"; "OHS measures status unknown"] |}.
Proof.
  cbn zeta. split; [apply parseComplianceData_fields|].
  unfold parseComplianceData.
  destruct (parseYesNo (raw_no_of_staff_rfb raw)) as [[]|],
    (parseYesNo (raw_cesmps_submitted raw)) as [[]|],
    (parseYesNo (raw_ohs_measures raw)) as [[]|];
    cbn; (repeat split); try reflexivity; try discriminate;
    intuition congruence.
Qed.

(** ** Fetching a workbook *)

Lemma FetchFailure_iff `{Network} `{Xlsx} opts source :
  FetchFailure opts source ↔ ∃ e, fetchWorkbook opts source = Throw e.
Proof.
  unfold fetchWorkbook. split.
  - intros [e He|response Hr Hok|response e Hr Hok Hb|response data e Hr Hok Hb Hd];
      rewrite ?He, ?Hr; cbn; rewrite ?Hok; cbn; rewrite ?Hb; cbn; eauto.
  - intros [e He].
    destruct (fetch (publishedXlsxUrl source)) as [response|e'] eqn:Hr; cbn in He.
    + destruct (ok response) eqn:Hok; cbn in He.
      * destruct (arrayBuffer response) as [data|e'] eqn:Hb; cbn in He.
        -- eapply undecodable_payload; eauto.
        -- eapply body_failure; eauto.
      * eapply http_failure; eauto.
    + eapply network_failure; eauto.
Qed.

(** ** IPC extraction *)

Lemma parseIPCData_records `{JsRuntime} (sheet : WorkSheet) :
  records (parseIPCData sheet) =
    map (fun '(label, cell) =>
           {| ipcNumber := label; ipc_status := statusOfRaw (statusRaw (sheet !! cell)) |})
        [("IPC 1", "Y2"); ("IPC 2", "Z2"); ("IPC 3", "AA2");
         ("IPC 4", "AB2"); ("IPC 5", "AC2"); ("IPC 6", "AD2")].
Proof. reflexivity. Qed.

Lemma parseIPCData_length `{JsRuntime} (sheet : WorkSheet) :
  length (records (parseIPCData sheet)) = 6.
Proof. rewrite parseIPCData_records. reflexivity. Qed.

Lemma fetchAllIPCData_unfold `{JsRuntime} `{Network} `{Xlsx} SHEET_SOURCES CONFIG :
  fetchAllIPCData SHEET_SOURCES CONFIG =
    Normal
      match head SHEET_SOURCES with
      | None => {| records := [] |}
      | Some source =>
          match fetchWorkbook ipcReadOptions source with
          | Throw _ => {| records := [] |}
          | Normal workbook =>
              match Sheets_get workbook (tabName CONFIG) with
              | None => {| records := [] |}
              | Some (own_sheet sheet) => parseIPCData sheet
              | Some (inherited_member _) => parseIPCData ∅
              end
          end
      end.
Proof.
  unfold fetchAllIPCData, fetchWorkbook, ipcReadOptions.
  destruct (head SHEET_SOURCES) as [source|]; [|reflexivity].
  destruct (fetch (publishedXlsxUrl source)) as [response|e]; [|reflexivity]. cbn.
  destruct (ok response); [|reflexivity]. cbn.
  destruct (arrayBuffer response) as [data|e]; [|reflexivity]. cbn.
  destruct (XLSX_read data _) as [workbook|e]; [|reflexivity]. cbn.
  by destruct (Sheets_get workbook (tabName CONFIG)) as [[sheet|member]|].
Qed.

Lemma Sheets_get_own (workbook : WorkBook) (name : string) (sheet : WorkSheet) :
  Sheets workbook !! name = Some sheet → Sheets_get workbook name = Some (own_sheet sheet).
Proof. intros Hs. unfold Sheets_get. by rewrite Hs. Qed.

Lemma Sheets_get_missing (workbook : WorkBook) (name : string) :
  Sheets workbook !! name = None → name ∉ ObjectPrototype_names →
  Sheets_get workbook name = None.
Proof.
  intros Hs Hname. unfold Sheets_get. rewrite Hs. by rewrite bool_decide_eq_false_2.
Qed.

Lemma Sheets_get_inherited (workbook : WorkBook) (name : string) :
  Sheets workbook !! name = None → name ∈ ObjectPrototype_names →
  Sheets_get workbook name = Some (inherited_member name).
Proof.
  intros Hs Hname. unfold Sheets_get. rewrite Hs. by rewrite bool_decide_eq_true_2.
Qed.

(** Under a tab name that [Object.prototype] carries, a workbook without a
    worksheet of that name passes the [!sheet] guard: the reader runs on the
    inherited member and gives six records without a status. *)
Lemma fetchAllIPCData_inherited_tab `{JsRuntime} `{Network} `{Xlsx}
    (source : SheetSource) (rest : list SheetSource) (CONFIG : Config) (workbook : WorkBook) :
  fetchWorkbook ipcReadOptions source = Normal workbook →
  Sheets workbook !! tabName CONFIG = None →
  tabName CONFIG ∈ ObjectPrototype_names →
  fetchAllIPCData (source :: rest) CONFIG =
    Normal {| records :=
                map (fun label => {| ipcNumber := label; ipc_status := status_null |})
                    ipcLabels |}.
Proof.
  intros Hwb Hs Hname. rewrite fetchAllIPCData_unfold. cbn [head].
  by rewrite Hwb, (Sheets_get_inherited _ _ Hs Hname).
Qed.


(** The example configuration: the tab name [Data_Entry] is not inherited. *)
Lemma data_entry_not_inherited : tabName data_entry_config ∉ ObjectPrototype_names.
Proof. apply (bool_decide_unpack _). vm_compute. exact I. Qed.

Lemma statusRaw_absent `{JsRuntime} : statusRaw None = None.
Proof. reflexivity. Qed.

Lemma statusRaw_falsy `{JsRuntime} (cell : Cell) :
  truthy (v cell) = false → statusRaw (Some cell) = None.
Proof. intros Hv. unfold statusRaw. by rewrite Hv. Qed.

Lemma statusRaw_truthy `{JsRuntime} (cell : Cell) :
  truthy (v cell) = true →
  statusRaw (Some cell) = Some (trim (toLowerCase (ToString (v cell)))).
Proof. intros Hv. unfold statusRaw. by rewrite Hv. Qed.

Lemma statusOfRaw_null : statusOfRaw None = status_null.
Proof. reflexivity. Qed.

(** Each word of the vocabulary maps to its status. *)
Lemma statusOfRaw_vocabulary (word : string) (s : IPCStatus) :
  (word, s) ∈ vocabulary → statusOfRaw (Some word) = status_of s.
Proof.
  unfold vocabulary. rewrite !elem_of_cons, elem_of_nil.
  intros [[= -> ->]|[[= -> ->]|[[= -> ->]|[[= -> ->]|[]]]]]; reflexivity.
Qed.

Lemma statusMap_own_vocabulary (raw : string) :
  statusMap_own raw = None ↔ raw ∉ (vocabulary.*1).
Proof.
  unfold statusMap_own, vocabulary. cbn [fmap list_fmap fst].
  rewrite !not_elem_of_cons.
  repeat match goal with
         | |- context [String.eqb raw ?word] =>
             destruct (String.eqb_spec raw word) as [->|?];
             [split; [intros [=]|intros (?&?&?&?&?); congruence]|]
         end.
  split; [|done]. intros _. split_and!; try done. apply not_elem_of_nil.
Qed.

(** A normalised text outside the vocabulary maps to [null], unless it names
    a member of [Object.prototype]. *)
Lemma statusOfRaw_outside (raw : string) :
  raw ∉ (vocabulary.*1) → raw ∉ ObjectPrototype_names → statusOfRaw (Some raw) = status_null.
Proof.
  intros Hvoc Hproto. apply statusMap_own_vocabulary in Hvoc.
  unfold statusOfRaw, statusMap. rewrite Hvoc.
  rewrite bool_decide_eq_false_2 by done. by destruct (String.eqb raw "").
Qed.

(** A normalised text that names a member of [Object.prototype] maps to that
    member. *)
Lemma statusOfRaw_inherited (raw : string) :
  raw ∈ ObjectPrototype_names → statusOfRaw (Some raw) = status_inherited raw.
Proof.
  unfold ObjectPrototype_names. rewrite !elem_of_cons, elem_of_nil.
  intros H.
  repeat (destruct H as [->|H]; [reflexivity|]). done.
Qed.

(** The example of the specification: the cells released, in process,
    submitted, not submitted, (empty), released. *)
Lemma parseIPCData_entry_sheet `{JsRuntime} :
  parseIPCData entry_sheet =
    {| records :=
         [ {| ipcNumber := "IPC 1"; ipc_status := status_of released |};
           {| ipcNumber := "IPC 2"; ipc_status := status_of in_process |};
           {| ipcNumber := "IPC 3"; ipc_status := status_of submitted |};
           {| ipcNumber := "IPC 4"; ipc_status := status_of not_submitted |};
           {| ipcNumber := "IPC 5"; ipc_status := status_null |};
           {| ipcNumber := "IPC 6"; ipc_status := status_of released |} ] |}.
Proof. vm_compute. reflexivity. Qed.

(** C3. The six cells Y2-AD2 are read in column order and labelled IPC 1 to
    IPC 6, and the vocabulary maps as stated; but a cell whose text is
    [constructor], which is outside the vocabulary, does not map to [null]:
    the record holds the member that [statusMap] inherits under that name. *)
Theorem parseIPCData_constructor_cell `{JsRuntime} :
  ("constructor" ∉ vocabulary.*1)
  ∧ odd_sheet !! encode_cell 1 24 = Some {| v := JStr "constructor" |}
  ∧ records (parseIPCData odd_sheet) !! 0%nat =
      Some {| ipcNumber := "IPC 1"; ipc_status := status_inherited "constructor" |}
  ∧ status_inherited "constructor" ≠ status_null.
Proof.
  split_and!.
  - apply statusMap_own_vocabulary. reflexivity.
  - vm_compute. reflexivity.
  - vm_compute. reflexivity.
  - discriminate.
Qed.

(** ** Worksheet selection *)

Lemma fetchRows_workbook `{Network} `{Xlsx} (source : SheetSource) :
  fetchRows source =
    fetchWorkbook rowReadOptions source ≫= fun workbook =>
    sheet_to_json_call (selectWorksheet workbook).
Proof.
  unfold fetchRows, fetchWorkbook, rowReadOptions.
  destruct (fetch (publishedXlsxUrl source)) as [response|e]; [|reflexivity]. cbn.
  destruct (ok response); [|reflexivity]. cbn.
  destruct (arrayBuffer response) as [data|e]; [|reflexivity]. cbn.
  destruct (XLSX_read data _) as [workbook|e]; reflexivity.
Qed.

Lemma selectWorksheet_conventional (workbook : WorkBook) :
  SheetNames workbook ≠ [] →
  selectWorksheet workbook = conventionalWorksheet "Data_Entry" workbook.
Proof.
  unfold selectWorksheet, conventionalWorksheet. intros Hne.
  case_bool_decide; [done|].
  destruct (SheetNames workbook); [done|reflexivity].
Qed.

Lemma sheetOfSource_rows `{Network} `{Xlsx} (source : SheetSource) :
  sheetOfSource source =
    fetchRows source ≫= fun jsonData =>
    mret {| sr_packageId := packageId source; rows := jsonData |}.
Proof. unfold sheetOfSource. by destruct (fetchRows source). Qed.

(** C7, as amended. The row fetcher and the compliance fetcher read the
    worksheet named [Data_Entry] when the workbook lists it and its first
    worksheet otherwise; the IPC fetcher reads only the worksheet of the
    configured name and, for a name that is not the name of a member of
    [Object.prototype], returns no record when the workbook lacks it. *)
Theorem worksheet_selection `{JsRuntime} `{Network} `{Xlsx} :
  (∀ workbook, "Data_Entry" ∈ SheetNames workbook →
     selectWorksheet workbook = Sheets workbook !! "Data_Entry")
  ∧ (∀ workbook first, "Data_Entry" ∉ SheetNames workbook →
       head (SheetNames workbook) = Some first →
       selectWorksheet workbook = Sheets workbook !! first)
  ∧ (∀ source workbook, fetchWorkbook rowReadOptions source = Normal workbook →
       sheetOfSource source =
         (sheet_to_json_call (selectWorksheet workbook) ≫= fun jsonData =>
          mret {| sr_packageId := packageId source; rows := jsonData |})
       ∧ complianceOfSource source =
           Normal {| cr_packageId := packageId source;
                     compliance :=
                       match sheet_to_json_call (selectWorksheet workbook) with
                       | Normal (row :: _) => parseComplianceData (Some (rawComplianceOfRow row))
                       | _ => parseComplianceData None
                       end |})
  ∧ (∀ source rest CONFIG workbook,
       fetchWorkbook ipcReadOptions source = Normal workbook →
       (∀ sheet, Sheets workbook !! tabName CONFIG = Some sheet →
          fetchAllIPCData (source :: rest) CONFIG = Normal (parseIPCData sheet))
       ∧ (Sheets workbook !! tabName CONFIG = None →
          tabName CONFIG ∉ ObjectPrototype_names →
          fetchAllIPCData (source :: rest) CONFIG = Normal {| records := [] |})).
Proof.
  split_and!.
  - intros workbook Hin. unfold selectWorksheet. by rewrite bool_decide_eq_true_2.
  - intros workbook first Hnot Hfirst. unfold selectWorksheet.
    rewrite bool_decide_eq_false_2 by done. by rewrite Hfirst.
  - intros source workbook Hwb. split.
    + rewrite sheetOfSource_rows, fetchRows_workbook, Hwb. reflexivity.
    + unfold complianceOfSource. rewrite fetchRows_workbook, Hwb. cbn.
      by destruct (sheet_to_json_call (selectWorksheet workbook)) as [[|row rows]|e].
  - intros source rest CONFIG workbook Hwb.
    rewrite fetchAllIPCData_unfold. cbn [head]. rewrite Hwb. split.
    + intros sheet Hsheet. by rewrite (Sheets_get_own _ _ _ Hsheet).
    + intros Hsheet Hname. by rewrite (Sheets_get_missing _ _ Hsheet Hname).
Qed.

(** C7, as stated, fails on the IPC path: the workbook of [source_p3] has no
    [Data_Entry] worksheet and [other_sheet] as its first worksheet; reading
    that one would give six records, the IPC fetcher returns none. *)
Lemma fetchAllIPCData_no_fallback :
  @fetchWorkbook sample_network sample_xlsx ipcReadOptions source_p3 = Normal plain_workbook
  ∧ (tabName data_entry_config ∉ ObjectPrototype_names)
  ∧ conventionalWorksheet (tabName data_entry_config) plain_workbook = Some other_sheet
  ∧ @fetchAllIPCData digits_runtime sample_network sample_xlsx [source_p3] data_entry_config
    = Normal {| records := [] |}
  ∧ @fetchAllIPCData digits_runtime sample_network sample_xlsx [source_p3] data_entry_config
    ≠ Normal (@parseIPCData digits_runtime other_sheet).
Proof.
  split_and!; [reflexivity|exact data_entry_not_inherited|reflexivity|reflexivity|].
  intros Heq. apply (f_equal (fun c => match c with
                                       | Normal d => length (records d)
                                       | Throw _ => 0
                                       end)) in Heq.
  rewrite parseIPCData_length in Heq. vm_compute in Heq. discriminate.
Qed.

(** ** Task mapping *)

Lemma truthy_false_iff (x : JsVal) :
  truthy x = false ↔
    absentOrEmpty x ∨ x = JBool false
    ∨ ∃ n, x = JNum n ∧ (isZero n = true ∨ isNaN n = true).
Proof.
  unfold absentOrEmpty. split.
  - destruct x as [| |[]|n|s]; cbn; intros Hx; try discriminate; auto.
    + right. right. exists n. split; [done|].
      apply negb_false_iff, orb_true_iff in Hx. done.
    + left. right. right. f_equal.
      apply negb_false_iff in Hx. by apply String.eqb_eq.
  - intros [[-> | [-> | ->]] | [-> | (n & -> & Hn)]]; try reflexivity.
    cbn. apply negb_false_iff, orb_true_iff. done.
Qed.

(** On the values that [sheet_to_json] produces with [raw: false] and
    [defval: null], strings and [null], falsy means absent or empty. *)
Lemma truthy_false_text (x : JsVal) :
  (x = JUndefined ∨ x = JNull ∨ ∃ s, x = JStr s) →
  truthy x = false ↔ absentOrEmpty x.
Proof.
  rewrite truthy_false_iff. unfold absentOrEmpty.
  intros [-> | [-> | [s ->]]]; (split; [|by auto]);
    (intros [?|[?|(n & ? & ?)]]; [done|discriminate|discriminate]).
Qed.

Lemma getValue_textField `{JsRuntime} (row : SheetRow) (key1 key2 : string) :
  getValue row key1 key2 = textField row key1 key2.
Proof.
  unfold getValue, textField, firstTruthy, jsOr.
  destruct (truthy (prop row key1)) eqn:H1; cbn; rewrite ?H1; [done|].
  destruct (truthy (prop row key2)) eqn:H2; cbn; rewrite ?H2; done.
Qed.

Lemma truthy_not_blank (x : JsVal) : truthy x = true → isBlank x = false.
Proof.
  destruct x as [| |b|n|s]; cbn; try done.
  by intros ->%negb_true_iff.
Qed.

Lemma absentOrEmpty_falsy (x : JsVal) : absentOrEmpty x → truthy x = false.
Proof. intros Hx. apply truthy_false_iff. by left. Qed.

Lemma absentOrEmpty_blank (x : JsVal) : absentOrEmpty x → isBlank x = true.
Proof. by intros [-> | [-> | ->]]. Qed.

Lemma getNumber_rule `{JsRuntime} (row : SheetRow) (key1 key2 : string) :
  numberFieldRule row key1 key2 (getNumber row key1 key2).
Proof.
  unfold numberFieldRule, getNumber, firstTruthy, jsOr, parsedNumber. split.
  - intros x. destruct (truthy (prop row key1)) eqn:Ht1.
    + intros [= <-]. by rewrite (truthy_not_blank _ Ht1).
    + destruct (truthy (prop row key2)) eqn:Ht2; [|done].
      intros [= <-]. by rewrite (truthy_not_blank _ Ht2).
  - intros Hb1 Hb2.
    by rewrite (absentOrEmpty_falsy _ Hb1), (absentOrEmpty_blank _ Hb2).
Qed.

Lemma mapRowToTask_returns `{JsRuntime} `{DataParser} (row : SheetRow) (packageId packageName : string) :
  ∃ result, mapRowToTask row packageId packageName = Normal result.
Proof.
  unfold mapRowToTask.
  match goal with |- ∃ _, try_catch ?body _ = _ => destruct body as [result|e] end;
    cbn; eauto.
Qed.

Lemma mapRowToTask_skip `{JsRuntime} `{DataParser} (row : SheetRow) (packageId packageName : string) :
  truthy (prop row "Site ID") = false → truthy (prop row "site_id") = false →
  mapRowToTask row packageId packageName = Normal None.
Proof. intros H1 H2. unfold mapRowToTask. by rewrite H1, H2. Qed.

Ltac step_parseDMY :=
  match goal with
  | |- context [parseDMY ?s] => destruct (parseDMY s) as [?|?] eqn:?; cbn
  end.

Lemma mapRowToTask_kept `{JsRuntime} `{DataParser} (row : SheetRow) (packageId packageName : string) :
  parseDMY_returns →
  truthy (prop row "Site ID") || truthy (prop row "site_id") = true →
  ∃ t, mapRowToTask row packageId packageName = Normal (Some t).
Proof.
  intros Hret Hsite. unfold mapRowToTask.
  replace (negb (truthy (prop row "Site ID")) && negb (truthy (prop row "site_id")))
    with false by (rewrite <- negb_orb, Hsite; reflexivity).
  repeat match goal with
         | |- context [parseDMY ?s] =>
             let d := fresh "d" in
             destruct (Hret s) as [d ->]; cbn
         end.
  eauto.
Qed.

(** The guard as the code has it. Provided the date parser returns, a row
    is dropped iff the values under both spellings of the site identifier
    are falsy; no other field takes part. *)
Lemma mapRowToTask_dropped_iff `{JsRuntime} `{DataParser}
    (row : SheetRow) (packageId packageName : string) :
  parseDMY_returns →
  (mapRowToTask row packageId packageName = Normal None
   ↔ truthy (prop row "Site ID") = false ∧ truthy (prop row "site_id") = false)
  ∧ (∀ other : SheetRow,
       prop other "Site ID" = prop row "Site ID" →
       prop other "site_id" = prop row "site_id" →
       (mapRowToTask other packageId packageName = Normal None
        ↔ mapRowToTask row packageId packageName = Normal None)).
Proof.
  intros Hret.
  assert (Hiff : ∀ r : SheetRow,
            mapRowToTask r packageId packageName = Normal None
            ↔ truthy (prop r "Site ID") = false ∧ truthy (prop r "site_id") = false).
  { intros r. split.
    - intros Hnone.
      destruct (truthy (prop r "Site ID") || truthy (prop r "site_id")) eqn:Hsite.
      + destruct (mapRowToTask_kept r packageId packageName Hret Hsite) as [t Ht].
        congruence.
      + by apply orb_false_iff in Hsite.
    - intros [H1 H2]. by apply mapRowToTask_skip. }
  split; [apply Hiff|].
  intros other Hid1 Hid2. rewrite !Hiff, Hid1, Hid2. done.
Qed.

(** The fields of a mapped row in terms of the first truthy value. Mapping
    always returns. In a mapped row a string field is the trimmed text of
    the first truthy value of the two spellings and the empty string without
    one; a numeric field is that value converted, absent when the
    conversion is NaN; a date field is what [parseDMY] makes of the string
    field. *)
Lemma mapRowToTask_fields `{JsRuntime} `{DataParser}
    (row : SheetRow) (packageId packageName : string) :
  (∃ result, mapRowToTask row packageId packageName = Normal result)
  ∧ (∀ t, mapRowToTask row packageId packageName = Normal (Some t) →
       (package_id t = packageId ∧ package_name t = packageName)
       ∧ (district t = textField row "District" "district"
          ∧ site_id t = textField row "Site ID" "site_id"
          ∧ site_name t = textField row "Site Name" "site_name"
          ∧ discipline t = textField row "Discipline" "discipline"
          ∧ task_name t = textField row "Task Name" "task_name"
          ∧ delay_flag_calc t = textField row "Delay Flag" "delay_flag_calc"
          ∧ remarks t = textField row "Remarks" "remarks"
          ∧ photo_folder_url t = textField row "Photo Folder" "photo_folder_url"
          ∧ cover_photo_share_url t = textField row "Cover Photo" "cover_photo_share_url"
          ∧ before_photo_share_url t = textField row "Before Photo" "before_photo_share_url"
          ∧ after_photo_share_url t = textField row "After Photo" "after_photo_share_url")
       ∧ (numberFieldRule row "Planned Duration (Days)" "planned_duration_days"
            (planned_duration_days t)
          ∧ numberFieldRule row "Progress %" "progress_pct" (progress_pct t)
          ∧ numberFieldRule row "Variance" "Variance" (Variance t))
       ∧ (dateField row "Planned Start" "planned_start" = Normal (planned_start t)
          ∧ dateField row "Planned Finish" "planned_finish" = Normal (planned_finish t)
          ∧ dateField row "Actual Start" "actual_start" = Normal (actual_start t)
          ∧ dateField row "Actual Finish" "actual_finish" = Normal (actual_finish t)
          ∧ dateField row "Last Updated" "last_updated" = Normal (last_updated t)))
  ∧ (∀ x, isNaN (ToNumber x) = true → parsedNumber x = None)
  ∧ (∀ key1 key2,
       absentOrEmpty (prop row key1) → absentOrEmpty (prop row key2) →
       textField row key1 key2 = "" ∧ dateField row key1 key2 = parseDMY "").
Proof.
  split; [apply mapRowToTask_returns|]. split; [|split].
  - intros t. unfold mapRowToTask, dateField.
    rewrite <- !getValue_textField.
    destruct (negb (truthy (prop row "Site ID")) && negb (truthy (prop row "site_id")));
      [discriminate|].
    repeat step_parseDMY; try discriminate.
    intros [= <-]. cbn. split_and!; try reflexivity; apply getNumber_rule.
  - intros x Hnan. unfold parsedNumber. by rewrite Hnan.
  - intros key1 key2 Hb1 Hb2.
    unfold dateField, textField, firstTruthy.
    by rewrite (absentOrEmpty_falsy _ Hb1), (absentOrEmpty_falsy _ Hb2).
Qed.

Lemma slash_parseDMY_returns : @parseDMY_returns slash_dates.
Proof.
  intros s. cbn. unfold slash_parseDMY.
  destruct (splitOn "/" s) as [|d [|m [|y [|? ?]]]]; eauto.
  destruct (parseDigits d), (parseDigits m), (parseDigits y); eauto.
Qed.

(** A row with a site identifier, mapped. *)
Lemma mapRowToTask_site_row :
  ∃ t, @mapRowToTask digits_runtime slash_dates site_row "P1" "Package 1" = Normal (Some t)
       ∧ site_id t = "S-001" ∧ site_name t = "Bridge 4" ∧ district t = ""
       ∧ planned_start t = Some (5, 2, 2026)%N ∧ planned_finish t = None
       ∧ progress_pct t = Some (@StringToNumber digits_runtime "55")
       ∧ Variance t = None.
Proof. eexists. split; [vm_compute; reflexivity|]. vm_compute. split_and!; reflexivity. Qed.

Lemma mapRowToTask_dropped_iff_witness :
  @parseDMY_returns slash_dates
  ∧ (@mapRowToTask digits_runtime slash_dates blank_row "P1" "Package 1" = Normal None
     ↔ truthy (prop blank_row "Site ID") = false ∧ truthy (prop blank_row "site_id") = false)
  ∧ (∀ other : SheetRow,
       prop other "Site ID" = prop blank_row "Site ID" →
       prop other "site_id" = prop blank_row "site_id" →
       (@mapRowToTask digits_runtime slash_dates other "P1" "Package 1" = Normal None
        ↔ @mapRowToTask digits_runtime slash_dates blank_row "P1" "Package 1" = Normal None)).
Proof.
  split; [exact slash_parseDMY_returns|].
  exact (@mapRowToTask_dropped_iff digits_runtime slash_dates blank_row
           "P1" "Package 1" slash_parseDMY_returns).
Defined.

(** On the rows that [sheet_to_json] produces, the guard drops exactly the
    rows without a site identifier. *)
Lemma mapRowToTask_dropped_iff_text `{JsRuntime} `{DataParser}
    (row : SheetRow) (packageId packageName : string) :
  parseDMY_returns →
  textValue (prop row "Site ID") → textValue (prop row "site_id") →
  mapRowToTask row packageId packageName = Normal None
  ↔ absentOrEmpty (prop row "Site ID") ∧ absentOrEmpty (prop row "site_id").
Proof.
  intros Hret Ht1 Ht2.
  rewrite (proj1 (mapRowToTask_dropped_iff row packageId packageName Hret)).
  by rewrite (truthy_false_text _ Ht1), (truthy_false_text _ Ht2).
Qed.

Lemma firstTruthy_text (row : SheetRow) (key1 key2 : string) :
  textValue (prop row key1) → textValue (prop row key2) →
  firstTruthy row key1 key2 = firstNonEmpty row key1 key2.
Proof.
  intros Ht1 Ht2. unfold firstTruthy, firstNonEmpty.
  pose proof (truthy_false_text _ Ht1) as H1. pose proof (truthy_false_text _ Ht2) as H2.
  destruct (decide (absentOrEmpty (prop row key1))) as [Ha1|Hn1].
  - rewrite (proj2 H1 Ha1). destruct (decide (absentOrEmpty (prop row key2))) as [Ha2|Hn2].
    + by rewrite (proj2 H2 Ha2).
    + destruct (truthy (prop row key2)); [done|]. destruct Hn2. by apply H2.
  - destruct (truthy (prop row key1)); [done|]. destruct Hn1. by apply H1.
Qed.

(** On the rows that [sheet_to_json] produces, the first non-empty of the
    two spellings wins: a string field is its trimmed text and the empty
    string without one, a numeric field is its number, absent when it does
    not parse or when there is none. *)
Lemma getValue_getNumber_text `{JsRuntime} (row : SheetRow) (key1 key2 : string) :
  textValue (prop row key1) → textValue (prop row key2) →
  getValue row key1 key2 =
    match firstNonEmpty row key1 key2 with
    | Some x => trim (ToString x)
    | None => ""
    end
  ∧ getNumber row key1 key2 =
      match firstNonEmpty row key1 key2 with
      | Some x => parsedNumber x
      | None => None
      end.
Proof.
  intros Ht1 Ht2. rewrite <- (firstTruthy_text row key1 key2 Ht1 Ht2).
  split; [apply getValue_textField|].
  destruct (getNumber_rule row key1 key2) as [Hwin Hnone].
  destruct (firstTruthy row key1 key2) as [x|] eqn:Hfirst; [by apply Hwin|].
  unfold firstTruthy in Hfirst.
  destruct (truthy (prop row key1)) eqn:Hf1; [done|].
  destruct (truthy (prop row key2)) eqn:Hf2; [done|].
  apply Hnone; by apply truthy_false_text.
Qed.

(** C4. A row whose site identifier is the number zero is dropped, although
    the identifier is neither absent nor empty: the guard
    [!row['Site ID'] && !row['site_id']] is a truthiness test. The same
    identifier as text is kept. *)
Theorem mapRowToTask_drops_zero_site :
  prop zero_site_row "Site ID" = JNum number_zero
  ∧ ¬ absentOrEmpty (prop zero_site_row "Site ID")
  ∧ @mapRowToTask digits_runtime slash_dates zero_site_row "P1" "Package 1" = Normal None
  ∧ ∃ t, @mapRowToTask digits_runtime slash_dates text_zero_site_row "P1" "Package 1"
           = Normal (Some t)
         ∧ site_id t = "0".
Proof.
  split_and!; [reflexivity| |reflexivity|].
  - intros [Hx | [Hx | Hx]]; vm_compute in Hx; discriminate.
  - eexists. split; [vm_compute; reflexivity|reflexivity].
Qed.

(** C8. A progress that is the number zero under the first spelling is not
    empty and converts to 0, yet [row[key1] || row[key2]] passes it over:
    the field takes the 55 of the second spelling, and is absent when there
    is no second value. Under the second spelling the same zero is kept,
    since the blank test of [getNumber] lets it through. *)
Theorem mapRowToTask_zero_progress_passed_over :
  ¬ absentOrEmpty (prop zero_progress_row "Progress %")
  ∧ @parsedNumber digits_runtime (prop zero_progress_row "Progress %") = Some number_zero
  ∧ (∃ t, @mapRowToTask digits_runtime slash_dates zero_progress_row "P1" "Package 1"
            = Normal (Some t)
          ∧ progress_pct t = @parsedNumber digits_runtime (JStr "55")
          ∧ progress_pct t ≠ Some number_zero)
  ∧ (∃ t, @mapRowToTask digits_runtime slash_dates zero_only_row "P1" "Package 1"
            = Normal (Some t)
          ∧ progress_pct t = None)
  ∧ (∃ t, @mapRowToTask digits_runtime slash_dates zero_second_row "P1" "Package 1"
            = Normal (Some t)
          ∧ progress_pct t = Some number_zero).
Proof.
  split_and!.
  - intros [Hx | [Hx | Hx]]; vm_compute in Hx; discriminate.
  - reflexivity.
  - eexists. split; [vm_compute; reflexivity|]. split; [reflexivity|].
    vm_compute. discriminate.
  - eexists. split; [vm_compute; reflexivity|reflexivity].
  - eexists. split; [vm_compute; reflexivity|reflexivity].
Qed.

(** ** Maps built by successive [set] calls *)

Section FoldInsert.
Context {A V : Type} (key : A → string) (val : A → V).

Lemma setAll_cons a l m :
  setAll key val (a :: l) m = setAll key val l (<[key a := val a]> m).
Proof. reflexivity. Qed.

Lemma setAll_app l1 l2 m :
  setAll key val (l1 ++ l2) m = setAll key val l2 (setAll key val l1 m).
Proof. apply fold_left_app. Qed.

Lemma setAll_lookup_ext l m m' k :
  m !! k = m' !! k → setAll key val l m !! k = setAll key val l m' !! k.
Proof.
  revert m m'. induction l as [|a l IH]; intros m m' Hk; [done|].
  rewrite !setAll_cons. apply IH. destruct (decide (key a = k)) as [<-|Hne].
  - by rewrite !lookup_insert_eq.
  - by rewrite !lookup_insert_ne.
Qed.

Lemma setAll_lookup_other l m k :
  k ∉ key <$> l → setAll key val l m !! k = m !! k.
Proof.
  revert m. induction l as [|a l IH]; intros m Hk; [done|].
  rewrite fmap_cons in Hk. apply not_elem_of_cons in Hk as [Hne Hk].
  rewrite setAll_cons, IH by done. by rewrite lookup_insert_ne.
Qed.

Lemma setAll_lookup_last l1 a l2 m :
  key a ∉ key <$> l2 → setAll key val (l1 ++ a :: l2) m !! key a = Some (val a).
Proof.
  intros Hlast. rewrite setAll_app, setAll_cons.
  rewrite setAll_lookup_other by done. apply lookup_insert_eq.
Qed.

Lemma setAll_remove l1 a l2 m k :
  k ≠ key a → setAll key val (l1 ++ a :: l2) m !! k = setAll key val (l1 ++ l2) m !! k.
Proof.
  intros Hne. rewrite !setAll_app, setAll_cons.
  apply setAll_lookup_ext. by rewrite lookup_insert_ne.
Qed.

Lemma setAll_dom l m : dom (setAll key val l m) = list_to_set (key <$> l) ∪ dom m.
Proof.
  revert m. induction l as [|a l IH]; intros m.
  - cbn. by rewrite (left_id_L ∅ (∪)).
  - rewrite setAll_cons, IH, dom_insert_L, fmap_cons, list_to_set_cons, (assoc_L (∪)).
    by rewrite (comm_L (∪) (list_to_set (key <$> l)) {[key a]}).
Qed.

Lemma setAll_lookup_NoDup l m a :
  NoDup (key <$> l) → a ∈ l → setAll key val l m !! key a = Some (val a).
Proof.
  intros Hnd (l1 & l2 & ->)%list_elem_of_split.
  apply setAll_lookup_last.
  rewrite fmap_app, fmap_cons in Hnd.
  apply NoDup_app in Hnd as (_ & _ & Hnd). by apply NoDup_cons in Hnd as [? _].
Qed.
End FoldInsert.

(** ** Aggregation over the sources *)

Lemma sheetOfSource_packageId `{Network} `{Xlsx} (source : SheetSource) value :
  sheetOfSource source = Normal value → sr_packageId value = packageId source.
Proof.
  rewrite sheetOfSource_rows. destruct (fetchRows source); cbn; [|done].
  by intros [= <-].
Qed.

Lemma fetchAllSheets_setAll `{Network} `{Xlsx} (SHEET_SOURCES : list SheetSource) :
  fetchAllSheets SHEET_SOURCES = setAll packageId rowsOfSource SHEET_SOURCES ∅.
Proof.
  unfold fetchAllSheets, allSettled, setAll. generalize (∅ : gmap string (list SheetRow)).
  induction SHEET_SOURCES as [|source sources IH]; intros m; [done|].
  cbn. rewrite IH. f_equal. unfold rowsOfSource.
  destruct (sheetOfSource source) as [value|e] eqn:Hs; [|done].
  by rewrite (sheetOfSource_packageId _ _ Hs).
Qed.

Lemma complianceOfSource_complianceOf `{JsRuntime} `{Network} `{Xlsx} (source : SheetSource) :
  complianceOfSource source =
    Normal {| cr_packageId := packageId source; compliance := complianceOf source |}.
Proof.
  unfold complianceOfSource, complianceOf.
  by destruct (fetchRows source) as [[|row jsonRows]|e].
Qed.

Lemma fetchAllComplianceData_setAll `{JsRuntime} `{Network} `{Xlsx} (SHEET_SOURCES : list SheetSource) :
  fetchAllComplianceData SHEET_SOURCES = setAll packageId complianceOf SHEET_SOURCES ∅.
Proof.
  unfold fetchAllComplianceData, allSettled, setAll.
  generalize (∅ : gmap string PackageCompliance).
  induction SHEET_SOURCES as [|source sources IH]; intros m; [done|].
  cbn. rewrite IH. by rewrite complianceOfSource_complianceOf.
Qed.

Lemma FetchFailure_fetchRows `{Network} `{Xlsx} (source : SheetSource) :
  FetchFailure rowReadOptions source → ∃ e, fetchRows source = Throw e.
Proof.
  intros [e He]%FetchFailure_iff. rewrite fetchRows_workbook, He. by exists e.
Qed.

Lemma FetchFailure_rowsOfSource `{Network} `{Xlsx} (source : SheetSource) :
  FetchFailure rowReadOptions source → rowsOfSource source = [].
Proof.
  intros [e He]%FetchFailure_fetchRows.
  unfold rowsOfSource. by rewrite sheetOfSource_rows, He.
Qed.

Lemma FetchFailure_complianceOf `{JsRuntime} `{Network} `{Xlsx} (source : SheetSource) :
  FetchFailure rowReadOptions source → complianceOf source = parseComplianceData None.
Proof.
  intros [e He]%FetchFailure_fetchRows. unfold complianceOf. by rewrite He.
Qed.

(** C5, as amended. A source whose pipeline fails (request rejected, HTTP
    status not a success, body unreadable or payload undecodable) settles as
    the empty row list and as the Unknown compliance record under its own
    package identifier, and under every other package identifier both maps
    are what they are without that source. *)
Theorem source_failure_isolated `{JsRuntime} `{Network} `{Xlsx}
    (before after : list SheetSource) (failing : SheetSource) :
  FetchFailure rowReadOptions failing →
  ((∃ e, sheetOfSource failing = Throw e)
   ∧ complianceOfSource failing =
       Normal {| cr_packageId := packageId failing; compliance := parseComplianceData None |}
   ∧ status (parseComplianceData None) = UNKNOWN)
  ∧ (∀ k, k ≠ packageId failing →
       fetchAllSheets (before ++ failing :: after) !! k = fetchAllSheets (before ++ after) !! k
       ∧ fetchAllComplianceData (before ++ failing :: after) !! k
         = fetchAllComplianceData (before ++ after) !! k)
  ∧ (packageId failing ∉ packageId <$> after →
       fetchAllSheets (before ++ failing :: after) !! packageId failing = Some []
       ∧ fetchAllComplianceData (before ++ failing :: after) !! packageId failing
         = Some (parseComplianceData None)).
Proof.
  intros Hfail. split_and!.
  - destruct (FetchFailure_fetchRows _ Hfail) as [e He].
    exists e. by rewrite sheetOfSource_rows, He.
  - by rewrite complianceOfSource_complianceOf, FetchFailure_complianceOf.
  - reflexivity.
  - intros k Hk. rewrite !fetchAllSheets_setAll, !fetchAllComplianceData_setAll.
    split; by apply setAll_remove.
  - intros Hlast. rewrite fetchAllSheets_setAll, fetchAllComplianceData_setAll.
    rewrite !setAll_lookup_last by done.
    by rewrite FetchFailure_rowsOfSource, FetchFailure_complianceOf.
Qed.

(** C10. With distinct package identifiers the map of [fetchAllSheets] has
    exactly the configured identifiers as keys, one entry per source, and
    the entry of a source is its rows, the empty list when its fetch
    failed. *)
Theorem fetchAllSheets_keys `{Network} `{Xlsx} (SHEET_SOURCES : list SheetSource) :
  NoDup (packageId <$> SHEET_SOURCES) →
  dom (fetchAllSheets SHEET_SOURCES) = list_to_set (packageId <$> SHEET_SOURCES)
  ∧ size (fetchAllSheets SHEET_SOURCES) = length SHEET_SOURCES
  ∧ (∀ source, source ∈ SHEET_SOURCES →
       fetchAllSheets SHEET_SOURCES !! packageId source = Some (rowsOfSource source)
       ∧ (FetchFailure rowReadOptions source →
          fetchAllSheets SHEET_SOURCES !! packageId source = Some [])).
Proof.
  intros Hnd. rewrite fetchAllSheets_setAll.
  assert (Hdom : dom (setAll packageId rowsOfSource SHEET_SOURCES ∅)
                 = list_to_set (packageId <$> SHEET_SOURCES)).
  { by rewrite setAll_dom, dom_empty_L, (right_id_L ∅ (∪)). }
  split_and!.
  - exact Hdom.
  - rewrite <- size_dom, Hdom, size_list_to_set by done. apply length_fmap.
  - intros source Hin.
    rewrite (setAll_lookup_NoDup packageId rowsOfSource _ _ _ Hnd Hin).
    split; [done|]. intros Hfail. by rewrite FetchFailure_rowsOfSource.
Qed.

Lemma sample_p2_fails : @FetchFailure sample_network sample_xlsx rowReadOptions source_p2.
Proof. by eapply http_failure. Qed.

Lemma sample_down_fails : @FetchFailure sample_network sample_xlsx rowReadOptions source_p1_down.
Proof. by eapply network_failure. Qed.

Lemma source_failure_isolated_witness :
  @FetchFailure sample_network sample_xlsx rowReadOptions source_p2
  ∧ ((∃ e, @sheetOfSource sample_network sample_xlsx source_p2 = Throw e)
     ∧ @complianceOfSource digits_runtime sample_network sample_xlsx source_p2 =
         Normal {| cr_packageId := packageId source_p2;
                   compliance := @parseComplianceData digits_runtime None |}
     ∧ status (@parseComplianceData digits_runtime None) = UNKNOWN)
  ∧ (∀ k, k ≠ packageId source_p2 →
       @fetchAllSheets sample_network sample_xlsx ([source_p1] ++ source_p2 :: [source_p3]) !! k
       = @fetchAllSheets sample_network sample_xlsx ([source_p1] ++ [source_p3]) !! k
       ∧ @fetchAllComplianceData digits_runtime sample_network sample_xlsx
           ([source_p1] ++ source_p2 :: [source_p3]) !! k
         = @fetchAllComplianceData digits_runtime sample_network sample_xlsx
             ([source_p1] ++ [source_p3]) !! k)
  ∧ (packageId source_p2 ∉ packageId <$> [source_p3] →
       @fetchAllSheets sample_network sample_xlsx ([source_p1] ++ source_p2 :: [source_p3])
         !! packageId source_p2 = Some []
       ∧ @fetchAllComplianceData digits_runtime sample_network sample_xlsx
           ([source_p1] ++ source_p2 :: [source_p3]) !! packageId source_p2
         = Some (@parseComplianceData digits_runtime None)).
Proof.
  split; [exact sample_p2_fails|].
  exact (@source_failure_isolated digits_runtime sample_network sample_xlsx
           [source_p1] [source_p3] source_p2 sample_p2_fails).
Defined.

(** C5, as stated, fails when the failing source shares its package
    identifier with another source: the entry of [source_p1] is its row
    without the failing source and the empty list with it. *)
Lemma source_failure_overwrites_same_package :
  @FetchFailure sample_network sample_xlsx rowReadOptions source_p1_down
  ∧ @rowsOfSource sample_network sample_xlsx source_p1 ≠ []
  ∧ @fetchAllSheets sample_network sample_xlsx [source_p1] !! packageId source_p1
    = Some (@rowsOfSource sample_network sample_xlsx source_p1)
  ∧ @fetchAllSheets sample_network sample_xlsx [source_p1; source_p1_down] !! packageId source_p1
    = Some []
  ∧ status <$> @fetchAllComplianceData digits_runtime sample_network sample_xlsx
                 [source_p1] !! packageId source_p1
    = Some NON_COMPLIANT
  ∧ status <$> @fetchAllComplianceData digits_runtime sample_network sample_xlsx
                 [source_p1; source_p1_down] !! packageId source_p1
    = Some UNKNOWN.
Proof.
  split_and!; [exact sample_down_fails| |reflexivity..].
  vm_compute. discriminate.
Qed.

Lemma sample_packageIds_distinct : NoDup (packageId <$> [source_p1; source_p2; source_p3]).
Proof. apply (bool_decide_unpack _). vm_compute. exact I. Qed.

Lemma fetchAllSheets_keys_witness :
  NoDup (packageId <$> [source_p1; source_p2; source_p3])
  ∧ dom (@fetchAllSheets sample_network sample_xlsx [source_p1; source_p2; source_p3])
    = list_to_set (packageId <$> [source_p1; source_p2; source_p3])
  ∧ size (@fetchAllSheets sample_network sample_xlsx [source_p1; source_p2; source_p3])
    = length [source_p1; source_p2; source_p3]
  ∧ (∀ source, source ∈ [source_p1; source_p2; source_p3] →
       @fetchAllSheets sample_network sample_xlsx [source_p1; source_p2; source_p3]
         !! packageId source = Some (@rowsOfSource sample_network sample_xlsx source)
       ∧ (@FetchFailure sample_network sample_xlsx rowReadOptions source →
          @fetchAllSheets sample_network sample_xlsx [source_p1; source_p2; source_p3]
            !! packageId source = Some [])).
Proof.
  split; [exact sample_packageIds_distinct|].
  exact (@fetchAllSheets_keys sample_network sample_xlsx
           [source_p1; source_p2; source_p3] sample_packageIds_distinct).
Defined.

(** ** The compliance scan *)

Lemma isFilled_spec (x : JsVal) : isFilled x = true ↔ ¬ absentOrEmpty x.
Proof.
  unfold absentOrEmpty. destruct x as [| |b|n|s]; cbn.
  - split; [done|]. intros Hx. destruct Hx. by left.
  - split; [done|]. intros Hx. destruct Hx. right. by left.
  - split; [|done]. intros _ [? | [? | ?]]; discriminate.
  - split; [|done]. intros _ [? | [? | ?]]; discriminate.
  - rewrite negb_true_iff, String.eqb_neq. split.
    + intros Hs [? | [? | [= ->]]]; done.
    + intros Hx ->. apply Hx. right. by right.
Qed.



(** A header that differs in case or in surrounding blanks is not found;
    an earlier candidate that is present but empty is passed over. *)
Lemma findColumn_examples :
  findColumn staffRfbNames (list_to_map [("no_of_staff_rfb", JStr "Yes")]) = JNull
  ∧ findColumn staffRfbNames (list_to_map [(" No_of_Staff_RFB", JStr "Yes")]) = JNull
  ∧ findColumn staffRfbNames
      (list_to_map [("Staff RFB", JStr "No"); ("No of Staff RFB", JStr "Yes");
                    ("No_of_Staff_RFB", JStr "")])
    = JStr "Yes".
Proof. split_and!; reflexivity. Qed.



(** The record of [source_p1] in the map over the three sample sources. *)
Lemma fetchAllComplianceData_entry_sheet :
  @fetchAllComplianceData digits_runtime sample_network sample_xlsx
    [source_p1; source_p2; source_p3] !! "P1"
  = Some {| no_of_staff_rfb := Some Yes; cesmps_submitted := Some No;
            ohs_measures := None; status := NON_COMPLIANT;
            issues := ["CESMPS not submitted"; "OHS measures status unknown"] |}.
Proof. vm_compute. reflexivity. Qed.

(** The first row of [entry_sheet]: Yes, "no" and an empty cell. *)
Lemma complianceOfSource_entry_sheet :
  @complianceOfSource digits_runtime sample_network sample_xlsx source_p1 =
    Normal {| cr_packageId := "P1";
              compliance :=
                {| no_of_staff_rfb := Some Yes; cesmps_submitted := Some No;
                   ohs_measures := None; status := NON_COMPLIANT;
                   issues := ["CESMPS not submitted"; "OHS measures status unknown"] |} |}.
Proof. vm_compute. reflexivity. Qed.

(** * Further properties *)

(** ** Strings *)

Lemma trimEnd_idempotent (s : string) : trimEnd (trimEnd s) = trimEnd s.
Proof.
  induction s as [|c s IH]; [done|]. cbn.
  destruct (trimEnd s) as [|a t] eqn:Ht.
  - destruct (isWhiteSpace c) eqn:Hc; [done|]. cbn. by rewrite Hc.
  - change (trimEnd (String c (String a t)))
      with (match trimEnd (String a t) with
            | EmptyString => if isWhiteSpace c then EmptyString else String c EmptyString
            | String a' t' => String c (String a' t')
            end).
    by rewrite IH.
Qed.

Lemma trimStart_fixed (c : ascii) (s : string) :
  isWhiteSpace c = false → trimStart (String c s) = String c s.
Proof. intros Hc. cbn. by rewrite Hc. Qed.

Lemma trimStart_head (s : string) :
  trimStart s = EmptyString ∨ ∃ c t, trimStart s = String c t ∧ isWhiteSpace c = false.
Proof.
  induction s as [|c s IH]; [by left|]. cbn.
  destruct (isWhiteSpace c) eqn:Hc; [done|]. right. eauto.
Qed.

Lemma trimEnd_head (c : ascii) (s : string) :
  isWhiteSpace c = false → ∃ t, trimEnd (String c s) = String c t.
Proof.
  intros Hc. cbn. destruct (trimEnd s); [|eauto]. rewrite Hc. eauto.
Qed.

Lemma trim_idempotent (s : string) : trim (trim s) = trim s.
Proof.
  unfold trim. destruct (trimStart_head s) as [-> | (c & t & -> & Hc)]; [done|].
  destruct (trimEnd_head c t Hc) as [u Hu]. rewrite Hu.
  rewrite (trimStart_fixed c u Hc), <- Hu. apply trimEnd_idempotent.
Qed.

Lemma lowerChar_not_upper (c : ascii) : isUpperAZ (lowerChar c) = false.
Proof. destruct c as [[] [] [] [] [] [] [] []]; reflexivity. Qed.

Lemma toLowerCase_no_upper (s : string) :
  allChars (fun c => negb (isUpperAZ c)) (toLowerCase s) = true.
Proof.
  induction s as [|c s IH]; [done|]. cbn [toLowerCase allChars].
  by rewrite lowerChar_not_upper, IH.
Qed.

Lemma allChars_trimStart (p : ascii → bool) (s : string) :
  allChars p s = true → allChars p (trimStart s) = true.
Proof.
  induction s as [|c s IH]; [done|]. cbn [allChars trimStart].
  intros [Hc Hs]%andb_true_iff. destruct (isWhiteSpace c); [by apply IH|].
  cbn. by rewrite Hc, Hs.
Qed.

Lemma allChars_trimEnd (p : ascii → bool) (s : string) :
  allChars p s = true → allChars p (trimEnd s) = true.
Proof.
  induction s as [|c s IH]; [done|]. cbn [allChars trimEnd].
  intros [Hc Hs]%andb_true_iff. specialize (IH Hs).
  destruct (trimEnd s) as [|a t].
  - destruct (isWhiteSpace c); [done|]. cbn. by rewrite Hc.
  - cbn [allChars] in IH |- *. by rewrite Hc, IH.
Qed.

Lemma normalised_no_upper (s : string) :
  allChars (fun c => negb (isUpperAZ c)) (trim (toLowerCase s)) = true.
Proof.
  unfold trim. apply allChars_trimEnd, allChars_trimStart, toLowerCase_no_upper.
Qed.

(** ** The compliance classifier *)

(** X1. Classifying the three fields of a record that the classifier
    produced from a raw record gives that record again. *)
Theorem parseComplianceData_renormalised `{JsRuntime} (raw : RawComplianceData) :
  parseComplianceData (Some (normalisedRaw (parseComplianceData (Some raw))))
  = parseComplianceData (Some raw).
Proof.
  unfold parseComplianceData, normalisedRaw.
  destruct (parseYesNo (raw_no_of_staff_rfb raw)) as [[]|],
    (parseYesNo (raw_cesmps_submitted raw)) as [[]|],
    (parseYesNo (raw_ohs_measures raw)) as [[]|]; reflexivity.
Qed.

(** X2. For every input, the missing record included: the issue list is
    empty exactly for a Compliant record, an Unknown record has exactly one
    issue, a NonCompliant record between one and three. *)
Theorem parseComplianceData_issue_count `{JsRuntime} (raw : option RawComplianceData) :
  let r := parseComplianceData raw in
  (issues r = [] ↔ status r = COMPLIANT)
  ∧ (status r = UNKNOWN → length (issues r) = 1)
  ∧ (status r = NON_COMPLIANT → (1 ≤ length (issues r) ≤ 3)%nat).
Proof.
  cbn zeta. destruct raw as [raw|]; [|cbn; intuition (discriminate || lia)].
  unfold parseComplianceData.
  destruct (parseYesNo (raw_no_of_staff_rfb raw)) as [[]|],
    (parseYesNo (raw_cesmps_submitted raw)) as [[]|],
    (parseYesNo (raw_ohs_measures raw)) as [[]|];
    cbn; intuition (discriminate || lia).
Qed.

(** ** The IPC reader *)

Lemma fold_left_ext_in {A B} (f g : A → B → A) (l : list B) (a : A) :
  (∀ a x, x ∈ l → f a x = g a x) → fold_left f l a = fold_left g l a.
Proof.
  revert a. induction l as [|x l IH]; intros a Hfg; [done|]. cbn.
  rewrite Hfg by apply list_elem_of_here. apply IH.
  intros a' y Hy. apply Hfg. by apply list_elem_of_further.
Qed.

(** X3. The IPC reader looks at the six cells of row index 1, columns 24 to
    29, and at nothing else: two worksheets that agree on those cells give
    the same records, whatever their headers and other cells. *)
Theorem parseIPCData_frame `{JsRuntime} (sheet other : WorkSheet) :
  (∀ col, col ∈ seq 24 6 → sheet !! encode_cell 1 col = other !! encode_cell 1 col) →
  parseIPCData sheet = parseIPCData other.
Proof.
  intros Hsame. unfold parseIPCData. f_equal. apply fold_left_ext_in.
  intros recs col Hcol. unfold parseIPCData_step. by rewrite (Hsame col Hcol).
Qed.

Lemma parseIPCData_frame_witness :
  (∀ col, col ∈ seq 24 6 →
     entry_sheet !! encode_cell 1 col = entry_sheet_renamed !! encode_cell 1 col)
  ∧ @parseIPCData digits_runtime entry_sheet = @parseIPCData digits_runtime entry_sheet_renamed.
Proof.
  assert (Hsame : ∀ col, col ∈ seq 24 6 →
            entry_sheet !! encode_cell 1 col = entry_sheet_renamed !! encode_cell 1 col).
  { intros col Hcol. change (seq 24 6) with [24; 25; 26; 27; 28; 29]%nat in Hcol.
    repeat (apply elem_of_cons in Hcol as [-> | Hcol]; [vm_compute; reflexivity|]).
    by apply elem_of_nil in Hcol. }
  split; [exact Hsame|].
  exact (@parseIPCData_frame digits_runtime entry_sheet entry_sheet_renamed Hsame).
Defined.

Lemma statusOfRaw_normalised_domain (s : string) :
  let status := statusOfRaw (Some (trim (toLowerCase s))) in
  status = status_null ∨ (∃ word, status = status_of word)
  ∨ status = status_inherited "constructor" ∨ status = status_inherited "__proto__".
Proof.
  cbn zeta. pose proof (normalised_no_upper s) as Hlow.
  remember (trim (toLowerCase s)) as raw eqn:Hraw. clear Hraw.
  unfold statusOfRaw, statusMap.
  destruct (String.eqb raw ""); [by left|].
  destruct (statusMap_own raw) as [word|]; [right; left; eauto|].
  case_bool_decide as Hin; [|by left].
  unfold ObjectPrototype_names in Hin. rewrite !elem_of_cons, elem_of_nil in Hin.
  repeat (destruct Hin as [-> | Hin];
          [first [ by (right; right; left) | by (right; right; right)
                 | vm_compute in Hlow; discriminate ]|]).
  done.
Qed.

(** X4. Whatever the worksheet holds, the status of an IPC record is
    [null], one of the four statuses, or the member inherited under the name
    [constructor] or [__proto__]: lower-casing keeps every other member of
    [Object.prototype] out of reach. *)
Theorem parseIPCData_status_domain `{JsRuntime} (sheet : WorkSheet) (record : IPCRecord) :
  record ∈ records (parseIPCData sheet) →
  ipc_status record = status_null
  ∨ (∃ word, ipc_status record = status_of word)
  ∨ ipc_status record = status_inherited "constructor"
  ∨ ipc_status record = status_inherited "__proto__".
Proof.
  rewrite parseIPCData_records. intros ([label cell] & -> & _)%list_elem_of_fmap.
  cbn [ipc_status]. unfold statusRaw.
  destruct (sheet !! cell) as [c|]; [|by left].
  destruct (truthy (v c)); [|by left].
  apply statusOfRaw_normalised_domain.
Qed.

Lemma parseIPCData_status_domain_witness :
  {| ipcNumber := "IPC 1"; ipc_status := status_inherited "constructor" |}
    ∈ records (@parseIPCData digits_runtime odd_sheet)
  ∧ (status_inherited "constructor" = status_null
     ∨ (∃ word, status_inherited "constructor" = status_of word)
     ∨ status_inherited "constructor" = status_inherited "constructor"
     ∨ status_inherited "constructor" = status_inherited "__proto__").
Proof.
  assert (Hin : {| ipcNumber := "IPC 1"; ipc_status := status_inherited "constructor" |}
                  ∈ records (@parseIPCData digits_runtime odd_sheet))
    by (vm_compute; apply list_elem_of_here).
  split; [exact Hin|].
  exact (@parseIPCData_status_domain digits_runtime odd_sheet _ Hin).
Defined.

(** X5. The IPC fetcher reads the first configured source only: its result
    is the same for any sources that follow the first, and on any two
    networks that answer the request for the first source alike. *)
Theorem fetchAllIPCData_first_source `{JsRuntime} `{Xlsx} (N1 N2 : Network)
    (source : SheetSource) (rest1 rest2 : list SheetSource) (CONFIG : Config) :
  @fetch N1 (publishedXlsxUrl source) = @fetch N2 (publishedXlsxUrl source) →
  @fetchAllIPCData _ N1 _ (source :: rest1) CONFIG
  = @fetchAllIPCData _ N2 _ (source :: rest2) CONFIG.
Proof.
  intros Hsame. rewrite !fetchAllIPCData_unfold. cbn [head].
  unfold fetchWorkbook. by rewrite Hsame.
Qed.

Lemma fetchAllIPCData_first_source_witness :
  @fetch sample_network (publishedXlsxUrl source_p1)
  = @fetch p1_only_network (publishedXlsxUrl source_p1)
  ∧ @fetchAllIPCData digits_runtime sample_network sample_xlsx
      (source_p1 :: [source_p2; source_p3]) data_entry_config
    = @fetchAllIPCData digits_runtime p1_only_network sample_xlsx
        (source_p1 :: []) data_entry_config.
Proof.
  split; [reflexivity|].
  exact (@fetchAllIPCData_first_source digits_runtime sample_xlsx
           sample_network p1_only_network source_p1 [source_p2; source_p3] []
           data_entry_config eq_refl).
Defined.

(** ** The maps of the aggregation *)

Lemma setAll_lookup_const {A V : Type} (key : A → string) (val : A → V)
    (l : list A) (m : gmap string V) (k : string) (c : V) :
  (∀ a, a ∈ l → val a = c) → k ∈ key <$> l → setAll key val l m !! k = Some c.
Proof.
  revert m. induction l as [|a l IH]; intros m Hval Hk.
  - by apply elem_of_nil in Hk.
  - rewrite setAll_cons. destruct (decide (k ∈ key <$> l)) as [Hin|Hout].
    + apply IH; [|done]. intros b Hb. apply Hval. by apply list_elem_of_further.
    + rewrite setAll_lookup_other by done.
      rewrite fmap_cons in Hk. apply elem_of_cons in Hk as [-> | Hk]; [|done].
      rewrite lookup_insert_eq. f_equal. apply Hval, list_elem_of_here.
Qed.

(** X6. For every source list, duplicates included, the compliance map has
    exactly the configured package identifiers as keys, since the callback
    of a source never rejects; the entry of an identifier is the record of
    the last source that carries it. *)
Theorem fetchAllComplianceData_entries `{JsRuntime} `{Network} `{Xlsx}
    (SHEET_SOURCES : list SheetSource) :
  dom (fetchAllComplianceData SHEET_SOURCES) = list_to_set (packageId <$> SHEET_SOURCES)
  ∧ (∀ before source after,
       SHEET_SOURCES = (before ++ source :: after)%list →
       packageId source ∉ packageId <$> after →
       ∃ record,
         complianceOfSource source =
           Normal {| cr_packageId := packageId source; compliance := record |}
         ∧ fetchAllComplianceData SHEET_SOURCES !! packageId source = Some record).
Proof.
  rewrite fetchAllComplianceData_setAll. split.
  - by rewrite setAll_dom, dom_empty_L, (right_id_L ∅ (∪)).
  - intros before source after -> Hlast. exists (complianceOf source).
    split; [apply complianceOfSource_complianceOf|]. by apply setAll_lookup_last.
Qed.

(** X7. For every source list, duplicates included, the row map has exactly
    the configured package identifiers as keys, and the entry of an
    identifier comes from the last source that carries it: its rows, or the
    empty list if that source failed. *)
Theorem fetchAllSheets_entries `{Network} `{Xlsx} (SHEET_SOURCES : list SheetSource) :
  dom (fetchAllSheets SHEET_SOURCES) = list_to_set (packageId <$> SHEET_SOURCES)
  ∧ (∀ before source after,
       SHEET_SOURCES = (before ++ source :: after)%list →
       packageId source ∉ packageId <$> after →
       fetchAllSheets SHEET_SOURCES !! packageId source =
         Some match sheetOfSource source with
              | Normal value => rows value
              | Throw _ => []
              end).
Proof.
  rewrite fetchAllSheets_setAll. split.
  - by rewrite setAll_dom, dom_empty_L, (right_id_L ∅ (∪)).
  - intros before source after -> Hlast.
    by rewrite (setAll_lookup_last packageId rowsOfSource).
Qed.

(** X8. When every request fails, nothing is raised: the IPC list is empty,
    and every configured package has the empty row list and the Unknown
    record for missing data. *)
Theorem total_outage `{JsRuntime} `{Network} `{Xlsx}
    (SHEET_SOURCES : list SheetSource) (CONFIG : Config) :
  (∀ url, ∃ e, fetch url = Throw e) →
  fetchAllIPCData SHEET_SOURCES CONFIG = Normal {| records := [] |}
  ∧ (∀ source, source ∈ SHEET_SOURCES →
       fetchAllSheets SHEET_SOURCES !! packageId source = Some []
       ∧ fetchAllComplianceData SHEET_SOURCES !! packageId source
         = Some (parseComplianceData None)).
Proof.
  intros Hdown.
  assert (Hfail : ∀ opts source, FetchFailure opts source).
  { intros opts source. destruct (Hdown (publishedXlsxUrl source)) as [e He].
    by eapply network_failure. }
  split.
  - rewrite fetchAllIPCData_unfold. destruct (head SHEET_SOURCES) as [source|]; [|done].
    destruct (proj1 (FetchFailure_iff _ _) (Hfail ipcReadOptions source)) as [e ->]. done.
  - intros source Hin.
    assert (Hk : packageId source ∈ packageId <$> SHEET_SOURCES)
      by (apply list_elem_of_fmap; eauto).
    rewrite fetchAllSheets_setAll, fetchAllComplianceData_setAll. split.
    + apply setAll_lookup_const; [|done].
      intros a _. apply FetchFailure_rowsOfSource, Hfail.
    + apply setAll_lookup_const; [|done].
      intros a _. apply FetchFailure_complianceOf, Hfail.
Qed.

Lemma total_outage_witness :
  (∀ url, ∃ e, @fetch down_network url = Throw e)
  ∧ @fetchAllIPCData digits_runtime down_network sample_xlsx
      [source_p1; source_p2] data_entry_config = Normal {| records := [] |}
  ∧ (∀ source, source ∈ [source_p1; source_p2] →
       @fetchAllSheets down_network sample_xlsx [source_p1; source_p2] !! packageId source
       = Some []
       ∧ @fetchAllComplianceData digits_runtime down_network sample_xlsx
           [source_p1; source_p2] !! packageId source
         = Some (@parseComplianceData digits_runtime None)).
Proof.
  assert (Hdown : ∀ url, ∃ e, @fetch down_network url = Throw e)
    by (intros url; eexists; reflexivity).
  split; [exact Hdown|].
  exact (@total_outage digits_runtime down_network sample_xlsx
           [source_p1; source_p2] data_entry_config Hdown).
Defined.

(** ** Worksheet selection and the column scan *)

(** X9. In a workbook that lists at least one worksheet and holds every
    worksheet it lists, the selection always finds a worksheet, and it is
    one of those listed. *)
Theorem selectWorksheet_found (workbook : WorkBook) :
  wellFormedWorkbook workbook →
  ∃ name sheet,
    name ∈ SheetNames workbook
    ∧ Sheets workbook !! name = Some sheet
    ∧ selectWorksheet workbook = Some sheet.
Proof.
  intros [Hne Hall]. unfold selectWorksheet. case_bool_decide as Hin.
  - destruct (Hall _ Hin) as [sheet Hs]. eauto.
  - destruct (SheetNames workbook) as [|first names] eqn:Hnames; [done|]. cbn.
    destruct (Hall first) as [sheet Hs]; [apply list_elem_of_here|].
    exists first, sheet. split_and!; [apply list_elem_of_here|done..].
Qed.

Lemma entry_workbook_wellFormed : wellFormedWorkbook entry_workbook.
Proof.
  split; [done|]. intros name Hin. cbn in Hin.
  repeat (apply elem_of_cons in Hin as [-> | Hin]; [by eexists|]).
  by apply elem_of_nil in Hin.
Qed.

Lemma selectWorksheet_found_witness :
  wellFormedWorkbook entry_workbook
  ∧ ∃ name sheet,
      name ∈ SheetNames entry_workbook
      ∧ Sheets entry_workbook !! name = Some sheet
      ∧ selectWorksheet entry_workbook = Some sheet.
Proof.
  split; [exact entry_workbook_wellFormed|].
  exact (selectWorksheet_found entry_workbook entry_workbook_wellFormed).
Defined.

(** X10. The column scan never yields [undefined] or the empty string: its
    result is [null], or a non-empty value that the row holds under one of
    the candidate names. *)
Theorem findColumn_result (names : list string) (row : SheetRow) :
  findColumn names row = JNull
  ∨ (¬ absentOrEmpty (findColumn names row)
     ∧ ∃ name, name ∈ names ∧ row !! name = Some (findColumn names row)).
Proof.
  induction names as [|colName rest IH]; [by left|]. cbn.
  destruct (row !! colName) as [x|] eqn:Hx.
  - destruct (isFilled x) eqn:Hf.
    + right. split; [by apply isFilled_spec|].
      exists colName. split; [apply list_elem_of_here|done].
    + destruct IH as [IH | (Hne & name & Hin & Hrow)]; [by left|].
      right. split; [done|]. exists name. split; [by apply list_elem_of_further|done].
  - destruct IH as [IH | (Hne & name & Hin & Hrow)]; [by left|].
    right. split; [done|]. exists name. split; [by apply list_elem_of_further|done].
Qed.

Lemma findColumn_snoc_unfilled (names : list string) (name : string) (row : SheetRow) :
  (∀ x, row !! name = Some x → isFilled x = false) →
  findColumn (names ++ [name]) row = findColumn names row.
Proof.
  intros Hname. induction names as [|colName rest IH]; cbn.
  - destruct (row !! name) as [x|] eqn:Hx; [|done]. by rewrite (Hname x).
  - by rewrite IH.
Qed.

Lemma findColumn_snoc_repeated (names : list string) (name : string) (row : SheetRow) :
  name ∈ names → findColumn (names ++ [name]) row = findColumn names row.
Proof.
  induction names as [|colName rest IH]; intros Hin; [by apply elem_of_nil in Hin|].
  cbn. destruct (row !! colName) as [x|] eqn:Hx.
  - destruct (isFilled x) eqn:Hf; [done|].
    destruct (decide (name = colName)) as [-> | Hne].
    + apply findColumn_snoc_unfilled. intros y Hy. congruence.
    + apply IH. apply elem_of_cons in Hin as [? | ?]; done.
  - destruct (decide (name = colName)) as [-> | Hne].
    + apply findColumn_snoc_unfilled. intros y Hy. congruence.
    + apply IH. apply elem_of_cons in Hin as [? | ?]; done.
Qed.

(** X11. The fourth candidate of the staff list and of the OHS list repeats
    the first and never decides the scan: the three distinct names give the
    same value on every row. *)
Theorem findColumn_repeated_candidate (row : SheetRow) :
  findColumn staffRfbNames row
  = findColumn ["No_of_Staff_RFB"; "No of Staff RFB"; "Staff RFB"] row
  ∧ findColumn ohsNames row = findColumn ["OHS_Measures"; "OHS Measures"; "OHS"] row.
Proof.
  split.
  - apply (findColumn_snoc_repeated ["No_of_Staff_RFB"; "No of Staff RFB"; "Staff RFB"]).
    apply list_elem_of_here.
  - apply (findColumn_snoc_repeated ["OHS_Measures"; "OHS Measures"; "OHS"]).
    apply list_elem_of_here.
Qed.

(** ** The task mapper *)

Lemma getValue_trimmed `{JsRuntime} (row : SheetRow) (key1 key2 : string) :
  trim (getValue row key1 key2) = getValue row key1 key2.
Proof.
  unfold getValue. destruct (truthy _); [apply trim_idempotent|reflexivity].
Qed.

Lemma getNumber_not_NaN `{JsRuntime} (row : SheetRow) (key1 key2 : string) (n : spec_float) :
  getNumber row key1 key2 = Some n → isNaN n = false.
Proof.
  unfold getNumber. destruct (isBlank _); [done|].
  destruct (isNaN (ToNumber _)) eqn:Hn; [done|]. by intros [= <-].
Qed.

(** The record of a mapped row, field by field, in the terms of the code. *)
Lemma mapRowToTask_Some `{JsRuntime} `{DataParser}
    (row : SheetRow) (packageId packageName : string) (t : Task) :
  mapRowToTask row packageId packageName = Normal (Some t) →
  ∃ planned_start' planned_finish' actual_start' actual_finish' last_updated',
    t = {| package_id := packageId;
           package_name := packageName;
           district := getValue row "District" "district";
           site_id := getValue row "Site ID" "site_id";
           site_name := getValue row "Site Name" "site_name";
           discipline := getValue row "Discipline" "discipline";
           task_name := getValue row "Task Name" "task_name";
           planned_start := planned_start';
           planned_finish := planned_finish';
           planned_duration_days := getNumber row "Planned Duration (Days)" "planned_duration_days";
           actual_start := actual_start';
           actual_finish := actual_finish';
           progress_pct := getNumber row "Progress %" "progress_pct";
           Variance := getNumber row "Variance" "Variance";
           delay_flag_calc := getValue row "Delay Flag" "delay_flag_calc";
           last_updated := last_updated';
           remarks := getValue row "Remarks" "remarks";
           photo_folder_url := getValue row "Photo Folder" "photo_folder_url";
           cover_photo_share_url := getValue row "Cover Photo" "cover_photo_share_url";
           before_photo_share_url := getValue row "Before Photo" "before_photo_share_url";
           after_photo_share_url := getValue row "After Photo" "after_photo_share_url";
           cover_photo_direct_url := None;
           before_photo_direct_url := None;
           after_photo_direct_url := None |}.
Proof.
  unfold mapRowToTask.
  destruct (negb (truthy (prop row "Site ID")) && negb (truthy (prop row "site_id")));
    [discriminate|].
  repeat step_parseDMY; try discriminate.
  intros [= <-]. by do 5 eexists.
Qed.

(** X12. The mapper reads a row under its thirty-seven header names only:
    two rows that agree under those names map to the same result, whatever
    other columns they have. *)
Theorem mapRowToTask_frame `{JsRuntime} `{DataParser}
    (row other : SheetRow) (packageId packageName : string) :
  (∀ key, key ∈ taskKeys → prop row key = prop other key) →
  mapRowToTask row packageId packageName = mapRowToTask other packageId packageName.
Proof.
  intros Hsame. unfold mapRowToTask, getValue, getNumber.
  repeat match goal with
         | |- context [prop row ?key] =>
             rewrite (Hsame key) by (apply (bool_decide_unpack _); vm_compute; exact I)
         end.
  reflexivity.
Qed.

Lemma site_row_extra_same :
  ∀ key, key ∈ taskKeys → prop site_row key = prop site_row_extra key.
Proof.
  intros key Hin. unfold prop, site_row_extra. rewrite lookup_insert_ne; [done|].
  intros <-. revert Hin. apply (bool_decide_unpack _). vm_compute. exact I.
Qed.

Lemma mapRowToTask_frame_witness :
  (∀ key, key ∈ taskKeys → prop site_row key = prop site_row_extra key)
  ∧ @mapRowToTask digits_runtime slash_dates site_row "P1" "Package 1"
    = @mapRowToTask digits_runtime slash_dates site_row_extra "P1" "Package 1".
Proof.
  split; [exact site_row_extra_same|].
  exact (@mapRowToTask_frame digits_runtime slash_dates site_row site_row_extra
           "P1" "Package 1" site_row_extra_same).
Defined.

(** X13. In every mapped task the string fields carry no leading or
    trailing blank space, no numeric field is NaN, and the three direct
    photo links are absent. *)
Theorem mapRowToTask_wellFormed `{JsRuntime} `{DataParser}
    (row : SheetRow) (packageId packageName : string) (t : Task) :
  mapRowToTask row packageId packageName = Normal (Some t) →
  Forall (fun field => trim field = field)
    [district t; site_id t; site_name t; discipline t; task_name t; delay_flag_calc t;
     remarks t; photo_folder_url t; cover_photo_share_url t; before_photo_share_url t;
     after_photo_share_url t]
  ∧ Forall (fun field => ∀ n, field = Some n → isNaN n = false)
      [planned_duration_days t; progress_pct t; Variance t]
  ∧ (cover_photo_direct_url t = None
     ∧ before_photo_direct_url t = None
     ∧ after_photo_direct_url t = None).
Proof.
  intros (d1 & d2 & d3 & d4 & d5 & ->)%mapRowToTask_Some. cbn. split_and!; try done.
  - repeat (apply Forall_cons; split; [apply getValue_trimmed|]). apply Forall_nil_2.
  - repeat (apply Forall_cons; split; [intros n; apply getNumber_not_NaN|]).
    apply Forall_nil_2.
Qed.

Lemma mapRowToTask_wellFormed_witness :
  ∃ t : @Task slash_dates,
    @mapRowToTask digits_runtime slash_dates site_row "P1" "Package 1" = Normal (Some t)
    ∧ Forall (fun field => trim field = field)
        [district t; site_id t; site_name t; discipline t; task_name t; delay_flag_calc t;
         remarks t; photo_folder_url t; cover_photo_share_url t; before_photo_share_url t;
         after_photo_share_url t]
    ∧ Forall (fun field => ∀ n, field = Some n → isNaN n = false)
        [planned_duration_days t; progress_pct t; Variance t]
    ∧ (cover_photo_direct_url t = None
       ∧ before_photo_direct_url t = None
       ∧ after_photo_direct_url t = None).
Proof.
  eexists. split; [vm_compute; reflexivity|].
  apply (@mapRowToTask_wellFormed digits_runtime slash_dates site_row "P1" "Package 1").
  vm_compute. reflexivity.
Defined.

(** X14. A site identifier made of blank space only does not drop the row:
    the value is truthy, so the row is mapped, and its [site_id] is the
    empty string. *)
Theorem mapRowToTask_blank_site_kept `{JsRuntime} `{DataParser}
    (row : SheetRow) (packageId packageName s : string) :
  parseDMY_returns →
  prop row "Site ID" = JStr s → s ≠ "" → trim s = "" →
  ∃ t, mapRowToTask row packageId packageName = Normal (Some t) ∧ site_id t = "".
Proof.
  intros Hret Hsite Hne Htrim.
  assert (Htruthy : truthy (prop row "Site ID") = true).
  { rewrite Hsite. cbn. apply negb_true_iff. by apply String.eqb_neq. }
  destruct (mapRowToTask_kept row packageId packageName Hret) as [t Ht];
    [by rewrite Htruthy|].
  exists t. split; [done|].
  destruct (mapRowToTask_Some _ _ _ _ Ht) as (d1 & d2 & d3 & d4 & d5 & ->). cbn.
  unfold getValue, jsOr. rewrite Htruthy, Htruthy, Hsite. exact Htrim.
Qed.

Lemma mapRowToTask_blank_site_kept_witness :
  @parseDMY_returns slash_dates
  ∧ prop space_site_row "Site ID" = JStr "   " ∧ "   " ≠ "" ∧ trim "   " = ""
  ∧ ∃ t, @mapRowToTask digits_runtime slash_dates space_site_row "P1" "Package 1"
           = Normal (Some t)
         ∧ site_id t = "".
Proof.
  split_and!; [exact slash_parseDMY_returns|reflexivity|discriminate|reflexivity|].
  refine (@mapRowToTask_blank_site_kept digits_runtime slash_dates space_site_row
            "P1" "Package 1" "   " slash_parseDMY_returns _ _ _);
    [reflexivity|discriminate|reflexivity].
Defined.

(** X15. An exception of the date parser on any of the five date fields
    does not leave the mapper: the row is dropped. *)
Theorem mapRowToTask_date_error `{JsRuntime} `{DataParser}
    (row : SheetRow) (packageId packageName key1 key2 e : string) :
  (key1, key2) ∈ dateKeys →
  parseDMY (getValue row key1 key2) = Throw e →
  mapRowToTask row packageId packageName = Normal None.
Proof.
  unfold dateKeys. rewrite !elem_of_cons, elem_of_nil. intros Hkey Hthrow.
  unfold mapRowToTask.
  destruct (negb (truthy (prop row "Site ID")) && negb (truthy (prop row "site_id")));
    [reflexivity|].
  repeat step_parseDMY; try reflexivity.
  destruct Hkey as [[= -> ->] | [[= -> ->] | [[= -> ->] | [[= -> ->] | [[= -> ->] | []]]]]];
    congruence.
Qed.

Lemma mapRowToTask_date_error_witness :
  ("Actual Start", "actual_start") ∈ dateKeys
  ∧ @parseDMY strict_dates (@getValue digits_runtime bad_date_row "Actual Start" "actual_start")
    = Throw "Invalid date"
  ∧ @mapRowToTask digits_runtime strict_dates bad_date_row "P1" "Package 1" = Normal None.
Proof.
  assert (Hkey : ("Actual Start", "actual_start") ∈ dateKeys)
    by (apply (bool_decide_unpack _); vm_compute; exact I).
  split_and!; [exact Hkey|reflexivity|].
  exact (@mapRowToTask_date_error digits_runtime strict_dates bad_date_row
           "P1" "Package 1" "Actual Start" "actual_start" "Invalid date" Hkey eq_refl).
Defined.

(** ** The IPC card *)

Lemma countStatus_cells (s : IPCStatus) (records : list IPCRecord) :
  IPCCard.countStatus s records =
    length (filter (fun cell : string * IPCCard.Badge =>
                      IPCCard.label cell.2 = IPCCard.label (IPCCard.getStatusBadge (status_of s)))
                   (map (fun ipc => (ipcNumber ipc, IPCCard.getStatusBadge (ipc_status ipc)))
                        records)).
Proof.
  unfold IPCCard.countStatus. induction records as [|ipc records IH]; [done|].
  cbn [map]. rewrite !filter_cons. cbn [snd].
  destruct (decide (ipc_status ipc = status_of s)) as [Heq | Hne].
  - rewrite decide_True by (by rewrite Heq). cbn [length]. by rewrite IH.
  - rewrite decide_False; [exact IH|]. intros Hlabel. apply Hne.
    destruct (ipc_status ipc) as [|[]|member], s; cbn in Hlabel; congruence.
Qed.

(** X16. When the card renders, it shows one cell per record, in order and
    under the record's label, and each count of the header equals the
    number of cells whose badge carries the corresponding text. *)
Theorem IPCCard_counts_match_cells (ipcData : IPCData) (view : IPCCard.View) :
  IPCCard.IPCCard ipcData = Some view →
  let shown (text : string) :=
    length (filter (fun cell : string * IPCCard.Badge => IPCCard.label cell.2 = text)
                   (IPCCard.cells view)) in
  let summary := IPCCard.summary (records ipcData) in
  map fst (IPCCard.cells view) = map ipcNumber (records ipcData)
  ∧ IPCCard.released summary = shown "Released"
  ∧ IPCCard.inProcess summary = shown "In Process"
  ∧ IPCCard.submitted summary = shown "Submitted"
  ∧ IPCCard.notSubmitted summary = shown "Not Submitted".
Proof.
  intros Hview. cbn zeta.
  assert (Hcells : IPCCard.cells view =
            map (fun ipc => (ipcNumber ipc, IPCCard.getStatusBadge (ipc_status ipc)))
                (records ipcData)).
  { unfold IPCCard.IPCCard in Hview. destruct (records ipcData); [done|].
    by injection Hview as <-. }
  rewrite Hcells. cbn [IPCCard.summary IPCCard.released IPCCard.inProcess
    IPCCard.submitted IPCCard.notSubmitted].
  split_and!.
  - rewrite map_map. reflexivity.
  - apply (countStatus_cells released).
  - apply (countStatus_cells in_process).
  - apply (countStatus_cells submitted).
  - apply (countStatus_cells not_submitted).
Qed.

Lemma IPCCard_counts_match_cells_witness :
  ∃ view,
    IPCCard.IPCCard (@parseIPCData digits_runtime entry_sheet) = Some view
    ∧ map fst (IPCCard.cells view)
      = map ipcNumber (records (@parseIPCData digits_runtime entry_sheet))
    ∧ IPCCard.released (IPCCard.summary (records (@parseIPCData digits_runtime entry_sheet)))
      = length (filter (fun cell : string * IPCCard.Badge => IPCCard.label cell.2 = "Released")
                       (IPCCard.cells view))
    ∧ IPCCard.inProcess (IPCCard.summary (records (@parseIPCData digits_runtime entry_sheet)))
      = length (filter (fun cell : string * IPCCard.Badge => IPCCard.label cell.2 = "In Process")
                       (IPCCard.cells view))
    ∧ IPCCard.submitted (IPCCard.summary (records (@parseIPCData digits_runtime entry_sheet)))
      = length (filter (fun cell : string * IPCCard.Badge => IPCCard.label cell.2 = "Submitted")
                       (IPCCard.cells view))
    ∧ IPCCard.notSubmitted (IPCCard.summary (records (@parseIPCData digits_runtime entry_sheet)))
      = length (filter (fun cell : string * IPCCard.Badge => IPCCard.label cell.2 = "Not Submitted")
                       (IPCCard.cells view)).
Proof.
  eexists. split; [vm_compute; reflexivity|].
  apply (IPCCard_counts_match_cells (@parseIPCData digits_runtime entry_sheet)).
  vm_compute. reflexivity.
Defined.

(** X17. On the records that the IPC reader produces the card always
    renders, with six cells labelled IPC 1 to IPC 6 in that order and at
    most four summary badges. *)
Theorem IPCCard_of_parseIPCData `{JsRuntime} (sheet : WorkSheet) :
  ∃ view,
    IPCCard.IPCCard (parseIPCData sheet) = Some view
    ∧ map fst (IPCCard.cells view) = ipcLabels
    ∧ (length (IPCCard.summaryBadges view) ≤ 4)%nat.
Proof.
  unfold IPCCard.IPCCard. rewrite parseIPCData_records. cbn [map].
  eexists. split; [reflexivity|]. split; [reflexivity|].
  cbn [IPCCard.summaryBadges]. rewrite !length_app. unfold IPCCard.summaryBadge.
  repeat match goal with |- context [if ?b then _ else _] => destruct b end; cbn; lia.
Qed.
